(** * Session orchestrator of the chess server (src/server.py)

    A shallow embedding of the socket.io event handlers [connect], [join],
    [move], [replay], [quit] and [disconnect], of the three module-level
    registries they share ([waiting], [games], [replay_requests]) and of the
    part of the channel they drive (per-handle session dicts, room
    membership, emitted messages).

    The chess library is an external collaborator of the server: it is taken
    as an interface, [RulesEngine], and every statement about the handlers
    holds for every implementation of it. *)

From Stdlib Require Import Ascii String.
From stdpp Require Import base strings gmap list.

Local Open Scope string_scope.
Local Open Scope list_scope.
Local Open Scope nat_scope.

(** ** Python strings: [str.split] with a one-character separator *)

Module PyStr.

(** [s.split(sep)]: the fields of [s] between the occurrences of [sep]; the
    result is never empty, and [""] splits into [[""]]. *)
Fixpoint py_split (sep : ascii) (s : string) : list string :=
  match s with
  | EmptyString => [EmptyString]
  | String c s' =>
      if Ascii.eqb c sep then EmptyString :: py_split sep s'
      else match py_split sep s' with
           | [] => [String c EmptyString]
           | w :: ws => String c w :: ws
           end
  end.

(** [sep in s] for a one-character [sep]. *)
Fixpoint contains (sep : ascii) (s : string) : bool :=
  match s with
  | EmptyString => false
  | String c s' => Ascii.eqb c sep || contains sep s'
  end.

End PyStr.

(** ** Python dicts: insertion-ordered association lists

    [disconnect] iterates over [games.items()], so the order of the keys is
    observable: a key keeps its position when its value is replaced, and a
    new key goes to the end. *)

Module PyDict.
Section ops.
Context {V : Type}.

(** [d.get(k)] *)
Fixpoint get (k : string) (d : list (string * V)) : option V :=
  match d with
  | [] => None
  | (k', v) :: d' => if String.eqb k k' then Some v else get k d'
  end.

(** [d[k] = v] *)
Fixpoint set (k : string) (v : V) (d : list (string * V)) : list (string * V) :=
  match d with
  | [] => [(k, v)]
  | (k', v') :: d' =>
      if String.eqb k k' then (k, v) :: d' else (k', v') :: set k v d'
  end.

(** [del d[k]], for a key that may be absent (the callers test first). A
    dict holds a key once; the entry is dropped wherever it is. *)
Fixpoint del (k : string) (d : list (string * V)) : list (string * V) :=
  match d with
  | [] => []
  | (k', v') :: d' =>
      if String.eqb k k' then del k d' else (k', v') :: del k d'
  end.

(** [k in d] *)
Definition mem (k : string) (d : list (string * V)) : bool :=
  match get k d with Some _ => true | None => false end.

End ops.
End PyDict.

(** ** Python lists used as the waiting queue *)

Module PyList.

(** [x in l] *)
Fixpoint mem (x : string) (l : list string) : bool :=
  match l with
  | [] => false
  | y :: l' => String.eqb x y || mem x l'
  end.

(** [l.remove(x)]: drops the first occurrence only. *)
Fixpoint remove (x : string) (l : list string) : list string :=
  match l with
  | [] => []
  | y :: l' => if String.eqb x y then l' else y :: remove x l'
  end.

End PyList.

(** ** The rules engine (python-chess), as an interface *)

Class RulesEngine := {
  Board : Type;
  Move : Type;
  (** [chess.Board()] *)
  initial : Board;
  (** [board.fen()] *)
  fen : Board → string;
  (** [chess.Move.from_uci(uci)]; [None] stands for the [ValueError] it
      raises on a string that is not a move. *)
  from_uci : string → option Move;
  (** [move in board.legal_moves] *)
  legal : Board → Move → bool;
  (** [board.push(move)] *)
  push : Board → Move → Board;
  (** [board.is_game_over()] *)
  is_game_over : Board → bool;
  (** [board.result()] *)
  result : Board → string;
}.

(** ** Messages *)

Abbreviation Sid := string.
Abbreviation Dict := (gmap string string).

(** The addressee of [sio.emit]: one handle ([to=sid]) or a room
    ([room=room]). When both are given, [to] wins. *)
Inductive Target :=
  | ToSid (sid : Sid)
  | ToRoom (room : string).

Record Emit := mkEmit {
  event : string;
  payload : Dict;
  target : Target;
}.

Inductive Exn := KeyError | ValueError | IndexError.

Global Instance Target_eq_dec : EqDecision Target.
Proof. solve_decision. Defined.
Global Instance Emit_eq_dec : EqDecision Emit.
Proof. solve_decision. Defined.
Global Instance Exn_eq_dec : EqDecision Exn.
Proof. solve_decision. Defined.

(** ** State of the server

    [waiting], [games] and [replay_requests] are the module-level registries
    of src/server.py. [sessions] and [rooms] belong to the channel
    ([sio.save_session] / [sio.get_session], [sio.enter_room] /
    [sio.leave_room]). The channel holds a session dict, empty at first,
    for every connected handle and for no other: the handles of [sessions]
    are the connected ones (see [arrive] and [forget] below).

    [sio.get_session] raises [KeyError] for a handle that is not connected.
    The handle whose event is being handled is connected, and for it the call
    returns ([get_session]); where a handler asks for the session of another
    handle, at line 125 of [quit], the call may raise ([get_session_of]).
    [sio.emit] does not fail when nobody listens. [sio.leave_room] is called
    for the sender only and does nothing for a handle that is not in the
    room. [sio.save_session] and [sio.enter_room], which [join] calls for the
    two handles it takes from the queue, are taken to succeed: a queued
    handle is connected when it is appended, and stays queued after its
    disconnection only if it was queued twice. *)

Section Orchestrator.
Context `{E : RulesEngine}.

Record State := mkState {
  waiting : list Sid;
  games : list (string * Board);
  replay_requests : gmap string (gset Sid);
  sessions : gmap Sid Dict;
  rooms : gmap string (gset Sid);
}.

Definition set_waiting (f : list Sid → list Sid) (st : State) : State :=
  mkState (f (waiting st)) (games st) (replay_requests st) (sessions st) (rooms st).
Definition set_games (f : list (string * Board) → list (string * Board)) (st : State) : State :=
  mkState (waiting st) (f (games st)) (replay_requests st) (sessions st) (rooms st).
Definition set_replay_requests (f : gmap string (gset Sid) → gmap string (gset Sid)) (st : State) : State :=
  mkState (waiting st) (games st) (f (replay_requests st)) (sessions st) (rooms st).
Definition set_sessions (f : gmap Sid Dict → gmap Sid Dict) (st : State) : State :=
  mkState (waiting st) (games st) (replay_requests st) (f (sessions st)) (rooms st).
Definition set_rooms (f : gmap string (gset Sid) → gmap string (gset Sid)) (st : State) : State :=
  mkState (waiting st) (games st) (replay_requests st) (sessions st) (f (rooms st)).

(** The state of a freshly started server. *)
Definition init : State := mkState [] [] ∅ ∅ ∅.

(** ** The handler monad: state, emitted messages, exceptions

    A handler either returns, or raises with the state as mutated and the
    messages as emitted up to that point. *)

Inductive Res (A : Type) :=
  | Ret (a : A) (st : State) (out : list Emit)
  | Raise (e : Exn) (st : State) (out : list Emit).
Global Arguments Ret {A} a st out.
Global Arguments Raise {A} e st out.

Definition M (A : Type) : Type := State → list Emit → Res A.

Global Instance M_ret : MRet M := λ A a st out, Ret a st out.
Global Instance M_bind : MBind M := λ A B f m st out,
  match m st out with
  | Ret a st' out' => f a st' out'
  | Raise e st' out' => Raise e st' out'
  end.

Definition gets {A} (f : State → A) : M A := λ st out, Ret (f st) st out.
Definition modify (f : State → State) : M unit := λ st out, Ret tt (f st) out.
Definition raise {A} (e : Exn) : M A := λ st out, Raise e st out.
Definition skip : M unit := mret tt.

(** [await sio.emit(event, data, ...)] *)
Definition emit (ev : string) (data : Dict) (tg : Target) : M unit :=
  λ st out, Ret tt st (out ++ [mkEmit ev data tg]).

(** [await sio.get_session(sid)], for the handle of the event that is being
    handled: its session, the empty dict when none was saved. *)
Definition get_session (sid : Sid) : M Dict :=
  gets (λ st, default ∅ (sessions st !! sid)).

(** [await sio.get_session(sid)], for another handle: the channel raises
    [KeyError] when the handle is not connected. *)
Definition get_session_of (sid : Sid) : M Dict := λ st out,
  match sessions st !! sid with
  | Some d => Ret d st out
  | None => Raise KeyError st out
  end.

(** [await sio.save_session(sid, d)] *)
Definition save_session (sid : Sid) (d : Dict) : M unit :=
  modify (set_sessions <[sid := d]>).

(** [await sio.enter_room(sid, room)] *)
Definition enter_room (sid : Sid) (room : string) : M unit :=
  modify (set_rooms (λ r, <[room := {[sid]} ∪ default ∅ (r !! room)]> r)).

(** [await sio.leave_room(sid, room)] *)
Definition leave_room (sid : Sid) (room : string) : M unit :=
  modify (set_rooms (λ r, match r !! room with
                          | Some s => <[room := s ∖ {[sid]}]> r
                          | None => r
                          end)).

(** [waiting.pop(0)] *)
Definition pop0 : M Sid := λ st out,
  match waiting st with
  | [] => Raise IndexError st out
  | p :: w => Ret p (set_waiting (λ _, w) st) out
  end.

(** [f"room_{p1}_{p2}"] *)
Definition room_name (p1 p2 : Sid) : string :=
  "room_" +:+ p1 +:+ "_" +:+ p2.

(** ** The handlers *)

(** [join(sid, data)], server.py lines 20-42; [data] is not read. *)
Definition join (sid : Sid) : M unit :=
  modify (set_waiting (λ w, w ++ [sid])) ;;
  w ← gets waiting ;
  if 2 <=? length w then
    p1 ← pop0 ;
    p2 ← pop0 ;
    let room := room_name p1 p2 in
    let board := initial in
    modify (set_games (PyDict.set room board)) ;;
    save_session p1 {[ "room" := room; "color" := "white" ]} ;;
    save_session p2 {[ "room" := room; "color" := "black" ]} ;;
    enter_room p1 room ;;
    enter_room p2 room ;;
    emit "start" {[ "fen" := fen board; "your_color" := "white" ]} (ToSid p1) ;;
    emit "start" {[ "fen" := fen board; "your_color" := "black" ]} (ToSid p2)
  else skip.

(** [data["from"] + data["to"]], then [+ data["promotion"]] when present;
    a missing ["from"] or ["to"] is a [KeyError]. *)
Definition build_uci (data : Dict) : M string :=
  match data !! "from" with
  | None => raise KeyError
  | Some f =>
      match data !! "to" with
      | None => raise KeyError
      | Some t =>
          match data !! "promotion" with
          | Some p => mret ((f +:+ t) +:+ p)
          | None => mret (f +:+ t)
          end
      end
  end.

(** [move(sid, data)], server.py lines 46-71. *)
Definition move (sid : Sid) (data : Dict) : M unit :=
  session ← get_session sid ;
  match session !! "room" with
  | None => raise KeyError
  | Some room =>
      g ← gets games ;
      match PyDict.get room g with
      | None => skip
      | Some board =>
          uci ← build_uci data ;
          match from_uci uci with
          | None => raise ValueError
          | Some mv =>
              if legal board mv then
                let board' := push board mv in
                modify (set_games (PyDict.set room board')) ;;
                emit "move" {[ "uci" := uci; "fen" := fen board' ]} (ToRoom room) ;;
                if is_game_over board' then
                  emit "game_over" {[ "result" := result board' ]} (ToRoom room)
                else skip
              else
                emit "invalid" {[ "uci" := uci ]} (ToSid sid)
          end
      end
  end.

(** [session.get("room")] followed by [if not room: return]: the room, unless
    the key is missing or the string is empty. *)
Definition truthy_room (session : Dict) : option string :=
  match session !! "room" with
  | Some r => if String.eqb r "" then None else Some r
  | None => None
  end.

(** [replay(sid, data)], server.py lines 75-97; [data] is not read. *)
Definition replay (sid : Sid) : M unit :=
  session ← get_session sid ;
  match truthy_room session with
  | None => skip
  | Some room =>
      modify (set_replay_requests (λ rr,
        match rr !! room with None => <[room := ∅]> rr | Some _ => rr end)) ;;
      modify (set_replay_requests (λ rr,
        <[room := {[sid]} ∪ default ∅ (rr !! room)]> rr)) ;;
      rr ← gets replay_requests ;
      if size (default ∅ (rr !! room)) =? 2 then
        let new_board := initial in
        modify (set_games (PyDict.set room new_board)) ;;
        emit "replay_start" {[ "fen" := fen new_board ]} (ToRoom room) ;;
        modify (set_replay_requests (delete room))
      else skip
  end.

(** [quit(sid, data)], server.py lines 101-132; [data] is not read. *)
Definition quit (sid : Sid) : M unit :=
  session ← get_session sid ;
  match truthy_room session with
  | None => skip
  | Some room =>
      match PyStr.py_split "_" room with
      | _ :: s1 :: s2 :: _ =>
          let opponent := if String.eqb sid s1 then s2 else s1 in
          emit "opponent_left" ∅ (ToRoom room) ;;
          modify (set_games (PyDict.del room)) ;;
          modify (set_replay_requests (delete room)) ;;
          opp_session ← get_session_of opponent ;
          (if bool_decide (is_Some (opp_session !! "room"))
           then save_session opponent (delete "room" opp_session)
           else skip) ;;
          w ← gets waiting ;
          (if PyList.mem opponent w then skip
           else modify (set_waiting (λ w, w ++ [opponent]))) ;;
          leave_room sid room
      | _ => skip
      end
  end.

(** The body of the loop of [disconnect] over the snapshot
    [list(games.items())]: it stops at the first room that names [sid], and
    the unpacking [s1, s2 = room.split("_")[1:]] raises [ValueError] on a
    room whose name does not split into exactly three fields. *)
Fixpoint disconnect_loop (sid : Sid) (items : list (string * Board)) : M unit :=
  match items with
  | [] => skip
  | (room, _) :: items' =>
      match PyStr.py_split "_" room with
      | [_; s1; s2] =>
          if String.eqb sid s1 || String.eqb sid s2 then
            emit "opponent_left" ∅ (ToRoom room) ;;
            modify (set_games (PyDict.del room)) ;;
            modify (set_replay_requests (delete room))
          else disconnect_loop sid items'
      | _ => raise ValueError
      end
  end.

(** [disconnect(sid)], server.py lines 136-150. *)
Definition disconnect (sid : Sid) : M unit :=
  w ← gets waiting ;
  (if PyList.mem sid w then modify (set_waiting (PyList.remove sid)) else skip) ;;
  g ← gets games ;
  disconnect_loop sid g.

(** ** Events and runs *)

(** [connect(sid, environ)], server.py lines 15-16: it only prints. *)
Definition connect (sid : Sid) : M unit := skip.

Inductive Event :=
  | EvJoin (sid : Sid)
  | EvMove (sid : Sid) (data : Dict)
  | EvReplay (sid : Sid)
  | EvQuit (sid : Sid)
  | EvDisconnect (sid : Sid)
  | EvConnect (sid : Sid).

Definition handler (ev : Event) : M unit :=
  match ev with
  | EvJoin sid => join sid
  | EvMove sid data => move sid data
  | EvReplay sid => replay sid
  | EvQuit sid => quit sid
  | EvDisconnect sid => disconnect sid
  | EvConnect sid => connect sid
  end.

(** What the channel does around a handler. An event is delivered for a
    connected handle: when it arrives the channel holds a session for its
    handle. After the handler of a disconnection, whether it returned or
    raised, the channel forgets the handle: its session is gone and it is a
    member of no room. *)
Definition arrive (ev : Event) (st : State) : State :=
  match ev with
  | EvJoin sid | EvMove sid _ | EvReplay sid | EvQuit sid | EvDisconnect sid
  | EvConnect sid =>
      set_sessions (λ ss, <[sid := default ∅ (ss !! sid)]> ss) st
  end.

Definition forget (sid : Sid) (st : State) : State :=
  set_rooms (fmap (λ s : gset Sid, s ∖ {[sid]}))
    (set_sessions (delete sid) st).

Definition depart (ev : Event) (st : State) : State :=
  match ev with
  | EvDisconnect sid => forget sid st
  | _ => st
  end.

(** One event, from a state and with nothing emitted yet. *)
Definition exec (m : M unit) (st : State) : Res unit := m st [].

Definition res_state {A} (r : Res A) : State :=
  match r with Ret _ st _ => st | Raise _ st _ => st end.
Definition res_out {A} (r : Res A) : list Emit :=
  match r with Ret _ _ out => out | Raise _ _ out => out end.
Definition raised {A} (r : Res A) : option Exn :=
  match r with Ret _ _ _ => None | Raise e _ _ => Some e end.

(** The server handles the events one after the other; an exception ends
    the handler that raised it and leaves the registries as they are at that
    point. The messages emitted by each event are kept apart. *)
Fixpoint run (evs : list Event) (st : State) : State * list (list Emit) :=
  match evs with
  | [] => (st, [])
  | ev :: evs' =>
      let r := exec (handler ev) (arrive ev st) in
      let '(st', outs) := run evs' (depart ev (res_state r)) in
      (st', res_out r :: outs)
  end.

(** Who receives a message, by the room membership of a state. *)
Definition recipients (st : State) (e : Emit) : gset Sid :=
  match target e with
  | ToSid sid => {[sid]}
  | ToRoom room => default ∅ (rooms st !! room)
  end.

(** ** Readings of a state used in the statements *)

(** The session of a handle as the handlers read it. *)
Definition session_of (st : State) (sid : Sid) : Dict :=
  default ∅ (sessions st !! sid).

(** The members of a room. *)
Definition members (st : State) (room : string) : gset Sid :=
  default ∅ (rooms st !! room).

(** The handles that asked for a replay in a room and were not served yet. *)
Definition pending (st : State) (room : string) : gset Sid :=
  default ∅ (replay_requests st !! room).

(** The string that [move] hands to [from_uci]: [from + to], then
    [+ promotion] when the request has one. *)
Definition uci_of (f t : string) (promotion : option string) : string :=
  match promotion with
  | Some p => (f +:+ t) +:+ p
  | None => f +:+ t
  end.

(** A move request that the specification wants ignored: the handle has no
    room, or its room has no game, or the game of its room is over. *)
Definition stray (st : State) (sid : Sid) : Prop :=
  match session_of st sid !! "room" with
  | None => True
  | Some room =>
      match PyDict.get room (games st) with
      | None => True
      | Some board => is_game_over board = true
      end
  end.

(** The replay handshake of one room, in the words of the specification:
    each request adds the requester to the set of those who asked; the
    restart fires exactly when the set holds both participants, and the set
    is then discarded. One boolean per request: did it fire? *)
Fixpoint handshake_spec (p1 p2 : Sid) (asked : gset Sid) (reqs : list Sid)
    : list bool :=
  match reqs with
  | [] => []
  | s :: reqs' =>
      let asked' := {[s]} ∪ asked in
      if bool_decide (p1 ∈ asked' ∧ p2 ∈ asked')
      then true :: handshake_spec p1 p2 ∅ reqs'
      else false :: handshake_spec p1 p2 asked' reqs'
  end.

(** The same reading of the code: the replay requests of [reqs] are handled
    in turn, and a request fires when its handler emits something. *)
Fixpoint restarts (reqs : list Sid) (st : State) : list bool :=
  match reqs with
  | [] => []
  | s :: reqs' =>
      let r := exec (replay s) st in
      bool_decide (res_out r ≠ []) :: restarts reqs' (res_state r)
  end.

End Orchestrator.

(** ** A small rules engine, for running the handlers on concrete inputs

    It knows one line of play, the fool's mate 1. f3 e5 2. g4 Qh4#: a board
    is the list of the moves played so far, a move is legal when it is the
    next one of the line, and the game is over, won by Black, after the
    fourth. On this line it answers as python-chess does. *)

Module Scripted.

Definition line : list string := ["f2f3"; "e7e5"; "g2g4"; "d8h4"].

(** The positions of the line, in Forsyth-Edwards notation. *)
Definition positions : list string :=
  ["rnbqkbnr/pppppppp/8/8/8/8/PPPPPPPP/RNBQKBNR w KQkq - 0 1";
   "rnbqkbnr/pppppppp/8/8/8/5P2/PPPPP1PP/RNBQKBNR b KQkq - 0 1";
   "rnbqkbnr/pppp1ppp/8/4p3/8/5P2/PPPPP1PP/RNBQKBNR w KQkq - 0 2";
   "rnbqkbnr/pppp1ppp/8/4p3/6P1/5P2/PPPPP2P/RNBQKBNR b KQkq - 0 2";
   "rnb1kbnr/pppp1ppp/8/4p3/6Pq/5P2/PPPPP2P/RNBQKBNR w KQkq - 1 3"].

Fixpoint is_prefix (l1 l2 : list string) : bool :=
  match l1, l2 with
  | [], _ => true
  | x :: l1', y :: l2' => String.eqb x y && is_prefix l1' l2'
  | _ :: _, [] => false
  end.

(** A file letter [a]..[h], a rank digit [1]..[8]. *)
Definition is_file (c : ascii) : bool :=
  (97 <=? nat_of_ascii c) && (nat_of_ascii c <=? 104).
Definition is_rank (c : ascii) : bool :=
  (49 <=? nat_of_ascii c) && (nat_of_ascii c <=? 56).

(** A move in UCI notation: two squares, then nothing or the letter of the
    piece to promote to. *)
Definition parse (s : string) : option string :=
  match s with
  | String f1 (String r1 (String f2 (String r2 p))) =>
      if is_file f1 && is_rank r1 && is_file f2 && is_rank r2
         && bool_decide (p ∈ [""; "q"; "r"; "b"; "n"])
      then Some s else None
  | _ => None
  end.

#[export] Instance engine : RulesEngine := {|
  Board := list string;
  Move := string;
  initial := [];
  fen := λ b, nth (length b) positions "";
  from_uci := parse;
  legal := λ b mv, is_prefix (b ++ [mv]) line;
  push := λ b mv, b ++ [mv];
  is_game_over := λ b, bool_decide (b = line);
  result := λ b, if bool_decide (b = line) then "0-1" else "*";
|}.

(** A request to move from one square to another, without promotion. *)
Definition req (f t : string) : Dict := {[ "from" := f; "to" := t ]}.

(** Two handles join and are paired in room [room_A_B]. *)
Definition paired : list Event := [EvJoin "A"; EvJoin "B"].

(** The four moves of the line, each by the side to move. *)
Definition mate : list Event :=
  paired ++
  [EvMove "A" (req "f2" "f3"); EvMove "B" (req "e7" "e5");
   EvMove "A" (req "g2" "g4"); EvMove "B" (req "d8" "h4")].

(** [A] quits its game with [B] and then asks for a replay; [B] plays and
    leaves a game with [C], who disconnects; [A] and [B] join again, in
    that order, and get a new game in a room of the same name. *)
Definition rematch : list Event :=
  paired ++
  [EvQuit "A"; EvReplay "A"; EvJoin "C"; EvQuit "B"; EvDisconnect "C";
   EvJoin "A"; EvJoin "B"].

(** The state a run from a fresh server ends in, and what it emitted. *)
Definition after (evs : list Event) : State := fst (run evs init).
Definition emitted (evs : list Event) : list (list Emit) := snd (run evs init).

Definition opponent_left (room : string) : Emit :=
  mkEmit "opponent_left" ∅ (ToRoom room).

End Scripted.

(** ** Further readings of handles, rooms and events *)

Section Readings.
Context `{E : RulesEngine}.

(** The number of occurrences of a character in a string. *)
Fixpoint count_sep (sep : ascii) (s : string) : nat :=
  match s with
  | EmptyString => 0
  | String c s' => (if Ascii.eqb c sep then 1 else 0) + count_sep sep s'
  end.

(** A handle without underscore. *)
Definition clean (s : Sid) : Prop := PyStr.contains "_" s = false.

(** A room named after two handles without underscore. *)
Definition clean_room (room : string) : Prop :=
  ∃ p1 p2 : Sid, clean p1 ∧ clean p2 ∧ room = room_name p1 p2.

(** The handle an event comes from. *)
Definition sid_of (ev : Event) : Sid :=
  match ev with
  | EvJoin sid | EvMove sid _ | EvReplay sid | EvQuit sid | EvDisconnect sid
  | EvConnect sid => sid
  end.

(** A state in which the queue, the rooms of the games and the rooms of the
    sessions are made of handles without underscore. *)
Definition clean_state (st : State) : Prop :=
  Forall clean (waiting st)
  ∧ Forall (λ kv, clean_room kv.1) (games st)
  ∧ ∀ (sid : Sid) (room : string),
      session_of st sid !! "room" = Some room → clean_room room.

(** A state in which every pending set of replay requests holds exactly one
    handle. *)
Definition one_pending (st : State) : Prop :=
  ∀ (room : string) (asked : gset Sid),
    replay_requests st !! room = Some asked → size asked = 1.

(** [opponent_left], to a room. *)
Definition left_msg (room : string) : Emit :=
  mkEmit "opponent_left" ∅ (ToRoom room).

(** A game of two handles without underscore, neither of which is [sid]. *)
Definition game_of_others {V} (sid : Sid) (kv : string * V) : Prop :=
  ∃ q1 q2 : Sid,
    PyStr.contains "_" q1 = false ∧ PyStr.contains "_" q2 = false
    ∧ kv.1 = room_name q1 q2 ∧ sid ≠ q1 ∧ sid ≠ q2.

End Readings.

(** ** The client (src/main.py) *)

Module Client.

Local Open Scope Z_scope.

(** [size] and [CELL = size // 8] *)
Definition size : Z := 800.
Definition CELL : Z := size / 8.

(** [pygame.Rect(left, top, width, height)] *)
Record Rect := mkRect { left : Z; top : Z; width : Z; height : Z }.

(** [rect.collidepoint(pos)]: the right and bottom edges are outside. *)
Definition collidepoint (r : Rect) (pos : Z * Z) : bool :=
  (left r <=? pos.1) && (pos.1 <? left r + width r)
  && (top r <=? pos.2) && (pos.2 <? top r + height r).

Section Squares.
(** [chess.square], [chess.square_file] and [chess.square_rank] of
    python-chess, taken as given. *)
Variable square : Z → Z → Z.
Variable square_file : Z → Z.
Variable square_rank : Z → Z.

(** [get_square_from_mouse(pos)], main.py lines 110-121, with the global
    [my_color] as an argument. *)
Definition get_square_from_mouse (my_color : option string) (pos : Z * Z) : Z :=
  let '(x, y) := pos in
  let j := x / CELL in
  let i := y / CELL in
  if bool_decide (my_color = Some "black"%string)
  then square (7 - j) i
  else square j (7 - i).

(** The rectangle that [draw_board] frames for the selected square,
    main.py lines 143-153. *)
Definition highlight_rect (my_color : option string) (sel_sq : Z) : Rect :=
  let file := square_file sel_sq in
  let rank := square_rank sel_sq in
  let '(j, i) :=
    if bool_decide (my_color = Some "black"%string)
    then (7 - file, rank) else (file, 7 - rank) in
  mkRect (j * CELL) (i * CELL) CELL CELL.

End Squares.

(** The payload of a move request, built from [move_obj.uci()],
    main.py lines 248-251: the slices [uci[0:2]] and [uci[2:4]], and
    [uci[4]] when the string has five characters. *)
Definition move_payload (uci : string) : Dict :=
  let payload : Dict :=
    {[ "from" := substring 0 2 uci; "to" := substring 2 2 uci ]}%string in
  if (String.length uci =? 5)%nat
  then <["promotion"%string := substring 4 1 uci]> payload
  else payload.

(** The globals of the client that the game-over screen reads and writes
    (the board, the colour and the selected square are not touched by it). *)
Record Flags := mkFlags {
  game_over_display : bool;
  game_over_message : string;
  replay_chosen : bool;
  waiting_for_opponent : bool;
}.

(** The buttons of [draw_game_over_overlay], main.py lines 173-174. *)
Definition replay_button_rect : Rect := mkRect (size / 2 - 100) (size / 2 + 20) 80 40.
Definition quit_button_rect : Rect := mkRect (size / 2 + 20) (size / 2 + 20) 80 40.

(** What a mouse click does while the game-over screen is shown, main.py
    lines 196-209: the new flags, the events sent to the server, and
    whether the client has exited. *)
Definition click_over (pos : Z * Z) (c : Flags) : Flags * list string * bool :=
  if collidepoint replay_button_rect pos then
    if negb (replay_chosen c) then
      (mkFlags (game_over_display c) (game_over_message c) true true,
       ["replay"%string], false)
    else (c, [], false)
  else if collidepoint quit_button_rect pos then
    (c, ["quit"%string], true)
  else (c, [], false).

(** The clicks of a game-over screen, in order, until the client exits. *)
Fixpoint clicks_over (clicks : list (Z * Z)) (c : Flags) : Flags * list string :=
  match clicks with
  | [] => (c, [])
  | pos :: clicks' =>
      let '(c', sent, exited) := click_over pos c in
      if exited then (c', sent)
      else let '(c'', sent') := clicks_over clicks' c' in (c'', sent ++ sent')
  end.

(** The three functions of python-chess on squares, as the library defines
    them: a square is a number from 0 to 63, rank by rank. *)
Definition py_square (file rank : Z) : Z := rank * 8 + file.
Definition py_square_file (sq : Z) : Z := Z.land sq 7.
Definition py_square_rank (sq : Z) : Z := Z.shiftr sq 3.

End Client.

(** * Facts about the embedding *)

(** ** Splitting room names *)

Section SplitFacts.
Import PyStr.

Lemma py_split_nonempty (sep : ascii) (s : string) : py_split sep s ≠ [].
Proof.
  destruct s as [|c s]; simpl; [done|].
  destruct (Ascii.eqb c sep); [done|].
  by destruct (py_split sep s).
Qed.

(** A string without the separator is its own single field. *)
Lemma py_split_clean (sep : ascii) (s : string) :
  contains sep s = false → py_split sep s = [s].
Proof.
  induction s as [|c s IH]; simpl; [done|].
  intros [Hc Hs]%orb_false_iff.
  rewrite Hc, (IH Hs). done.
Qed.

(** A separator after a clean prefix ends the first field. *)
Lemma py_split_field (sep : ascii) (s t : string) :
  contains sep s = false →
  py_split sep (s +:+ String sep t) = s :: py_split sep t.
Proof.
  induction s as [|c s IH]; simpl.
  - intros _. by rewrite Ascii.eqb_refl.
  - intros [Hc Hs]%orb_false_iff. by rewrite Hc, (IH Hs).
Qed.

End SplitFacts.

Section Facts.
Context `{E : RulesEngine}.

(** The name of a room made of two handles without underscores splits back
    into the two handles. *)
Lemma split_room_name (p1 p2 : Sid) :
  PyStr.contains "_" p1 = false →
  PyStr.contains "_" p2 = false →
  PyStr.py_split "_" (room_name p1 p2) = ["room"; p1; p2].
Proof.
  intros H1 H2. unfold room_name.
  change ("room_" +:+ p1 +:+ "_" +:+ p2)
    with ("room" +:+ String "_" (p1 +:+ String "_" p2)).
  rewrite py_split_field by done.
  rewrite py_split_field by done.
  by rewrite py_split_clean.
Qed.

Lemma room_name_truthy (p1 p2 : Sid) (d : Dict) :
  d !! "room" = Some (room_name p1 p2) →
  truthy_room d = Some (room_name p1 p2).
Proof. intros H. unfold truthy_room. by rewrite H. Qed.

(** ** Dict lookups after an update *)

Lemma get_set_eq {V} (k : string) (v : V) (d : list (string * V)) :
  PyDict.get k (PyDict.set k v d) = Some v.
Proof.
  induction d as [|[k' v'] d IH]; simpl.
  - by rewrite String.eqb_refl.
  - destruct (String.eqb k k') eqn:Hk; simpl; by rewrite ?String.eqb_refl, ?Hk.
Qed.

Lemma get_set_ne {V} (k k' : string) (v : V) (d : list (string * V)) :
  k ≠ k' → PyDict.get k' (PyDict.set k v d) = PyDict.get k' d.
Proof.
  intros Hne. induction d as [|[k0 v0] d IH]; simpl.
  - destruct (String.eqb_spec k' k); congruence.
  - destruct (String.eqb_spec k k0) as [->|]; simpl.
    + destruct (String.eqb_spec k' k0); congruence.
    + by rewrite IH.
Qed.

Lemma get_del_eq {V} (k : string) (d : list (string * V)) :
  PyDict.get k (PyDict.del k d) = None.
Proof.
  induction d as [|[k' v'] d IH]; simpl; [done|].
  destruct (String.eqb k k') eqn:Hk; simpl; by rewrite ?Hk.
Qed.

Lemma get_del_ne {V} (k k' : string) (d : list (string * V)) :
  k ≠ k' → PyDict.get k' (PyDict.del k d) = PyDict.get k' d.
Proof.
  intros Hne. induction d as [|[k0 v0] d IH]; simpl; [done|].
  destruct (String.eqb_spec k k0) as [->|]; simpl.
  - destruct (String.eqb_spec k' k0); congruence.
  - by rewrite IH.
Qed.

Lemma mem_elem_of (x : string) (l : list string) :
  PyList.mem x l = true ↔ x ∈ l.
Proof.
  induction l as [|y l IH]; simpl.
  - split; [done|]. by intros ?%elem_of_nil.
  - rewrite orb_true_iff, IH, elem_of_cons, String.eqb_eq. done.
Qed.

End Facts.

(** * The handlers, event by event *)

Section Handlers.
Context `{E : RulesEngine}.

#[local] Ltac step_m :=
  unfold exec, join, move, replay, quit, disconnect, build_uci, get_session,
    get_session_of, save_session, enter_room, leave_room, pop0, emit, gets,
    modify, raise, skip,
    mbind, M_bind, mret, M_ret; simpl.

#[local] Ltac case_size :=
  match goal with |- context [?n =? 2] => destruct (n =? 2) end.

(** ** join *)

(** What [join] does when the queue, once [sid] is appended, holds at
    least two handles. *)
Lemma join_pairs (st : State) (sid p1 p2 : Sid) (rest : list Sid) :
  waiting st ++ [sid] = p1 :: p2 :: rest →
  let room := room_name p1 p2 in
  exec (join sid) st =
    Ret tt
      {| waiting := rest;
         games := PyDict.set room initial (games st);
         replay_requests := replay_requests st;
         sessions :=
           <[p2 := {[ "room" := room; "color" := "black" ]}]>
             (<[p1 := {[ "room" := room; "color" := "white" ]}]> (sessions st));
         rooms :=
           let r1 := <[room := {[p1]} ∪ default ∅ (rooms st !! room)]> (rooms st) in
           <[room := {[p2]} ∪ default ∅ (r1 !! room)]> r1 |}
      [mkEmit "start" {[ "fen" := fen initial; "your_color" := "white" ]} (ToSid p1);
       mkEmit "start" {[ "fen" := fen initial; "your_color" := "black" ]} (ToSid p2)].
Proof.
  intros Hq room. step_m. rewrite Hq. simpl. rewrite Hq. done.
Qed.

(** What [join] does otherwise: the handle waits. *)
Lemma join_waits (st : State) (sid : Sid) :
  waiting st = [] →
  exec (join sid) st = Ret tt (set_waiting (λ _, [sid]) st) [].
Proof.
  intros Hq. step_m. rewrite Hq. simpl.
  unfold set_waiting. by rewrite Hq.
Qed.

(** A run, one event at a time. *)
Lemma run_cons (ev : Event) (evs : list Event) (st : State) :
  run (ev :: evs) st =
    (fst (run evs (depart ev (res_state (exec (handler ev) (arrive ev st))))),
     res_out (exec (handler ev) (arrive ev st))
       :: snd (run evs (depart ev (res_state (exec (handler ev) (arrive ev st)))))).
Proof.
  simpl.
  by destruct (run evs (depart ev (res_state (exec (handler ev) (arrive ev st))))).
Qed.

(** The arrival of an event changes neither the queue, the games, the
    pending requests, the rooms nor what a handler reads in a session; it
    disconnects no handle. *)
Lemma arrive_waiting (ev : Event) (st : State) :
  waiting (arrive ev st) = waiting st.
Proof. by destruct ev. Qed.

Lemma arrive_games (ev : Event) (st : State) :
  games (arrive ev st) = games st.
Proof. by destruct ev. Qed.

Lemma arrive_replay_requests (ev : Event) (st : State) :
  replay_requests (arrive ev st) = replay_requests st.
Proof. by destruct ev. Qed.

Lemma arrive_session_of (ev : Event) (st : State) (sid : Sid) :
  session_of (arrive ev st) sid = session_of st sid.
Proof.
  unfold session_of.
  destruct ev as [s|s d|s|s|s|s]; simpl;
    (destruct (decide (s = sid)) as [->|Hne];
     [by rewrite lookup_insert_eq | by rewrite lookup_insert_ne]).
Qed.

Lemma arrive_connected (ev : Event) (st : State) (sid : Sid) :
  is_Some (sessions st !! sid) → is_Some (sessions (arrive ev st) !! sid).
Proof.
  intros Hc.
  destruct ev as [s|s d|s|s|s|s]; simpl;
    (destruct (decide (s = sid)) as [->|Hne];
     [rewrite lookup_insert_eq; eauto | by rewrite lookup_insert_ne]).
Qed.

(** What the channel forgets after a disconnection is not in the stores of
    the program. *)
Lemma depart_waiting (ev : Event) (st : State) :
  waiting (depart ev st) = waiting st.
Proof. by destruct ev. Qed.

Lemma depart_games (ev : Event) (st : State) :
  games (depart ev st) = games st.
Proof. by destruct ev. Qed.

Lemma depart_replay_requests (ev : Event) (st : State) :
  replay_requests (depart ev st) = replay_requests st.
Proof. by destruct ev. Qed.

(** A queue of at most one handle stays so through a join: the handle
    waits, or it is paired with the one that waited. *)
Lemma join_keeps_queue_short (st : State) (sid : Sid) :
  length (waiting st) ≤ 1 →
  raised (exec (join sid) st) = None
  ∧ length (waiting (res_state (exec (join sid) st))) ≤ 1.
Proof.
  intros Hlen. destruct (waiting st) as [|p [|q w]] eqn:Hw.
  - rewrite (join_waits st sid Hw). simpl. auto.
  - rewrite (join_pairs st sid p sid []) by (by rewrite Hw). simpl. auto.
  - simpl in Hlen. lia.
Qed.

(** X19. In a run made of joins only, the queue never holds more than one
    handle between two events: it reaches two for the time of a pairing. *)
Lemma joins_keep_queue_short (sids : list Sid) :
  ∀ st : State,
    length (waiting st) ≤ 1 →
    length (waiting (fst (run (EvJoin <$> sids) st))) ≤ 1.
Proof.
  induction sids as [|sid sids IH]; intros st Hlen; [done|].
  rewrite <- (arrive_waiting (EvJoin sid)) in Hlen.
  destruct (join_keeps_queue_short _ sid Hlen) as [_ Hlen'].
  rewrite fmap_cons, run_cons. simpl. by apply IH.
Qed.

(** C1. Whenever a join brings the waiting queue to two handles or more, the
    two oldest handles [p1], [p2] leave the queue in that order and the queue
    is shorter by exactly two; the game of their room is a board in the
    initial position; [p1] is recorded as white and [p2] as black; both are
    members of the room; and one [start] message goes to each of them alone,
    with the position of the board and the colour of the addressee. *)
Theorem join_pairs_two_oldest (st : State) (sid p1 p2 : Sid) (rest : list Sid) :
  waiting st ++ [sid] = p1 :: p2 :: rest →
  let room := room_name p1 p2 in
  ∃ st' : State,
    exec (join sid) st =
      Ret tt st'
        [mkEmit "start" {[ "fen" := fen initial; "your_color" := "white" ]} (ToSid p1);
         mkEmit "start" {[ "fen" := fen initial; "your_color" := "black" ]} (ToSid p2)]
    ∧ waiting st' = rest
    ∧ length (waiting st') + 2 = length (waiting st ++ [sid])
    ∧ PyDict.get room (games st') = Some initial
    ∧ sessions st' =
        <[p2 := {[ "room" := room; "color" := "black" ]}]>
          (<[p1 := {[ "room" := room; "color" := "white" ]}]> (sessions st))
    ∧ (p1 ≠ p2 →
       session_of st' p1 = {[ "room" := room; "color" := "white" ]})
    ∧ session_of st' p2 = {[ "room" := room; "color" := "black" ]}
    ∧ p1 ∈ members st' room ∧ p2 ∈ members st' room
    ∧ replay_requests st' = replay_requests st.
Proof.
  intros Hq room. eexists. split; [by apply join_pairs|]. simpl.
  repeat split.
  - rewrite Hq. simpl. lia.
  - apply get_set_eq.
  - intros Hne. unfold session_of. simpl.
    by rewrite lookup_insert_ne, lookup_insert_eq by done.
  - unfold session_of. simpl. by rewrite lookup_insert_eq.
  - unfold members. simpl. rewrite !lookup_insert_eq. simpl. set_solver.
  - unfold members. simpl. rewrite !lookup_insert_eq. simpl. set_solver.
Qed.

(** ** move *)

(** [move] up to the parsing of the request, for a handle whose room has a
    game. *)
Lemma move_parsed (st : State) (sid : Sid) (data : Dict)
    (room : string) (board : Board) (f t : string) (mv : Move) :
  session_of st sid !! "room" = Some room →
  PyDict.get room (games st) = Some board →
  data !! "from" = Some f →
  data !! "to" = Some t →
  from_uci (uci_of f t (data !! "promotion")) = Some mv →
  let uci := uci_of f t (data !! "promotion") in
  exec (move sid data) st =
    if legal board mv then
      Ret tt (set_games (PyDict.set room (push board mv)) st)
        (mkEmit "move" {[ "uci" := uci; "fen" := fen (push board mv) ]} (ToRoom room)
         :: if is_game_over (push board mv)
            then [mkEmit "game_over" {[ "result" := result (push board mv) ]} (ToRoom room)]
            else [])
    else
      Ret tt st [mkEmit "invalid" {[ "uci" := uci ]} (ToSid sid)].
Proof.
  intros Hs Hg Hf Ht Hp uci. unfold session_of, uci, uci_of in *. step_m.
  rewrite Hs, Hg, Hf, Ht.
  destruct (data !! "promotion") as [p|]; simpl; simpl in Hp; rewrite Hp;
    destruct (legal board mv); simpl; try done;
    by destruct (is_game_over (push board mv)).
Qed.

(** C2. A move request from a handle whose room has a game, once parsed:
    a legal move is pushed on the board of the room and one [move] message,
    with the move and the position after it, goes to the room, followed, when
    that position ends the game, by one [game_over] message with the result,
    to the room as well; an illegal move changes nothing and one [invalid]
    message goes to the requester alone. *)
Theorem move_legal_or_illegal (st : State) (sid : Sid) (data : Dict)
    (room : string) (board : Board) (f t : string) (mv : Move) :
  session_of st sid !! "room" = Some room →
  PyDict.get room (games st) = Some board →
  data !! "from" = Some f →
  data !! "to" = Some t →
  from_uci (uci_of f t (data !! "promotion")) = Some mv →
  let uci := uci_of f t (data !! "promotion") in
  let board' := push board mv in
  let moved := mkEmit "move" {[ "uci" := uci; "fen" := fen board' ]} (ToRoom room) in
  let over := mkEmit "game_over" {[ "result" := result board' ]} (ToRoom room) in
  (legal board mv = true →
     ∃ st' : State,
       exec (move sid data) st =
         Ret tt st' (if is_game_over board' then [moved; over] else [moved])
       ∧ PyDict.get room (games st') = Some board'
       ∧ waiting st' = waiting st ∧ sessions st' = sessions st
       ∧ replay_requests st' = replay_requests st ∧ rooms st' = rooms st
       ∧ recipients st' moved = members st room
       ∧ recipients st' over = members st room)
  ∧ (legal board mv = false →
       exec (move sid data) st =
         Ret tt st [mkEmit "invalid" {[ "uci" := uci ]} (ToSid sid)]
       ∧ recipients st (mkEmit "invalid" {[ "uci" := uci ]} (ToSid sid)) = {[sid]}).
Proof.
  intros Hs Hg Hf Ht Hp uci board' moved over. subst uci board' moved over.
  pose proof (move_parsed st sid data room board f t mv Hs Hg Hf Ht Hp) as Hm.
  simpl in Hm. split; intros Hl; rewrite Hl in Hm.
  - eexists. split.
    + rewrite Hm. by destruct (is_game_over (push board mv)).
    + simpl. split; [apply get_set_eq | done].
  - done.
Qed.

(** Reading the request fails before the board is touched. *)
Lemma move_key_error (st : State) (sid : Sid) (data : Dict)
    (room : string) (board : Board) :
  session_of st sid !! "room" = Some room →
  PyDict.get room (games st) = Some board →
  data !! "from" = None ∨ data !! "to" = None →
  exec (move sid data) st = Raise KeyError st [].
Proof.
  unfold session_of. intros Hs Hg Hk. step_m. rewrite Hs, Hg.
  destruct Hk as [Hk|Hk]; rewrite Hk; [done|].
  by destruct (data !! "from").
Qed.

Lemma move_value_error (st : State) (sid : Sid) (data : Dict)
    (room : string) (board : Board) (f t : string) :
  session_of st sid !! "room" = Some room →
  PyDict.get room (games st) = Some board →
  data !! "from" = Some f →
  data !! "to" = Some t →
  from_uci (uci_of f t (data !! "promotion")) = None →
  exec (move sid data) st = Raise ValueError st [].
Proof.
  unfold session_of, uci_of. intros Hs Hg Hf Ht Hp. step_m.
  rewrite Hs, Hg, Hf, Ht.
  destruct (data !! "promotion"); simpl; by rewrite Hp.
Qed.

(** C10. A move request from a handle whose room has a game, when the
    request lacks ["from"] or ["to"], raises [KeyError]; when the string made
    of its fields is not a move, it raises [ValueError]. Either way the
    handler stops with the state as it was, the board of the room included,
    and with nothing emitted. *)
Theorem move_malformed_raises (st : State) (sid : Sid) (data : Dict)
    (room : string) (board : Board) :
  session_of st sid !! "room" = Some room →
  PyDict.get room (games st) = Some board →
  (data !! "from" = None ∨ data !! "to" = None →
     exec (move sid data) st = Raise KeyError st [])
  ∧ (∀ f t : string,
       data !! "from" = Some f →
       data !! "to" = Some t →
       from_uci (uci_of f t (data !! "promotion")) = None →
       exec (move sid data) st = Raise ValueError st [])
  ∧ (∀ r : Res unit,
       exec (move sid data) st = r →
       is_Some (raised r) →
       res_state r = st ∧ res_out r = []
       ∧ PyDict.get room (games (res_state r)) = Some board).
Proof.
  intros Hs Hg. split; [|split].
  - by apply (move_key_error st sid data room board).
  - intros f t. by apply (move_value_error st sid data room board).
  - intros r <- Hr.
    destruct (data !! "from") as [f|] eqn:Hf;
      [destruct (data !! "to") as [t|] eqn:Ht|].
    + destruct (from_uci (uci_of f t (data !! "promotion"))) as [mv|] eqn:Hp.
      * pose proof (move_parsed st sid data room board f t mv Hs Hg Hf Ht Hp) as Hm.
        simpl in Hm. rewrite Hm in Hr.
        destruct (legal board mv); simpl in Hr; by destruct Hr.
      * by rewrite (move_value_error st sid data room board f t).
    + rewrite (move_key_error st sid data room board) by auto. done.
    + rewrite (move_key_error st sid data room board) by auto. done.
Qed.

(** A handle whose session names a room without a game: nothing happens. *)
Lemma move_no_game (st : State) (sid : Sid) (data : Dict) (room : string) :
  session_of st sid !! "room" = Some room →
  PyDict.get room (games st) = None →
  exec (move sid data) st = Ret tt st [].
Proof. unfold session_of. intros Hs Hg. step_m. by rewrite Hs, Hg. Qed.

(** A handle whose session has no ["room"] key: [session["room"]] raises. *)
Lemma move_unattached (st : State) (sid : Sid) (data : Dict) :
  session_of st sid !! "room" = None →
  exec (move sid data) st = Raise KeyError st [].
Proof. unfold session_of. intros Hs. step_m. by rewrite Hs. Qed.


(** C7 (as amended). A move request from a handle whose session names a room
    that has no game, as after the room was torn down, is ignored: the
    handler returns, the state is as it was, nothing is emitted. *)
Theorem move_without_game_is_silent (st : State) (sid : Sid) (data : Dict)
    (room : string) :
  session_of st sid !! "room" = Some room →
  PyDict.get room (games st) = None →
  ∀ r : Res unit,
    exec (move sid data) st = r →
    raised r = None ∧ res_state r = st ∧ res_out r = [].
Proof. intros Hs Hg r <-. by rewrite (move_no_game st sid data room). Qed.

(** ** replay *)

Lemma replay_ignored (st : State) (sid : Sid) :
  truthy_room (session_of st sid) = None →
  exec (replay sid) st = Ret tt st [].
Proof. unfold session_of. intros Hs. step_m. by rewrite Hs. Qed.

(** One replay request: the requester joins the pending set of its room, and
    the game restarts exactly when that makes two. *)
Lemma replay_step (st : State) (sid : Sid) (room : string) :
  truthy_room (session_of st sid) = Some room →
  exec (replay sid) st =
    if size ({[sid]} ∪ pending st room) =? 2 then
      Ret tt
        {| waiting := waiting st;
           games := PyDict.set room initial (games st);
           replay_requests := delete room (replay_requests st);
           sessions := sessions st;
           rooms := rooms st |}
        [mkEmit "replay_start" {[ "fen" := fen initial ]} (ToRoom room)]
    else
      Ret tt
        {| waiting := waiting st;
           games := games st;
           replay_requests := <[room := {[sid]} ∪ pending st room]> (replay_requests st);
           sessions := sessions st;
           rooms := rooms st |}
        [].
Proof.
  unfold session_of, pending. intros Hs. step_m. rewrite Hs. simpl.
  unfold set_replay_requests, set_games. simpl.
  destruct (replay_requests st !! room) as [s|] eqn:Hr; simpl.
  - rewrite lookup_insert_eq, Hr. simpl.
    case_size; simpl; [|done].
    by rewrite delete_insert_eq.
  - rewrite !lookup_insert_eq. simpl. rewrite insert_insert_eq.
    case_size; simpl; [|done].
    by rewrite delete_insert_eq.
Qed.

(** With nothing pending for its room, a request restarts nothing. *)
Lemma replay_first_request (st : State) (sid : Sid) (room : string) :
  truthy_room (session_of st sid) = Some room →
  replay_requests st !! room = None →
  exec (replay sid) st =
    Ret tt (set_replay_requests <[room := {[sid]}]> st) [].
Proof.
  intros Hs Hr. rewrite (replay_step st sid room Hs).
  assert (pending st room = ∅) as -> by (unfold pending; by rewrite Hr).
  rewrite (right_id_L ∅ (∪)), size_singleton. done.
Qed.

(** The requester asking again changes nothing. *)
Lemma replay_same_again (st : State) (sid : Sid) (room : string) :
  truthy_room (session_of st sid) = Some room →
  replay_requests st !! room = Some {[sid]} →
  exec (replay sid) st = Ret tt st [].
Proof.
  intros Hs Hr. rewrite (replay_step st sid room Hs).
  assert (pending st room = {[sid]}) as -> by (unfold pending; by rewrite Hr).
  rewrite (idemp_L (∪)), size_singleton. simpl.
  rewrite insert_id by done. by destruct st.
Qed.

(** The other participant asking restarts the game. *)
Lemma replay_second_request (st : State) (sid other : Sid) (room : string) :
  truthy_room (session_of st sid) = Some room →
  replay_requests st !! room = Some {[other]} →
  sid ≠ other →
  exec (replay sid) st =
    Ret tt
      (set_replay_requests (delete room) (set_games (PyDict.set room initial) st))
      [mkEmit "replay_start" {[ "fen" := fen initial ]} (ToRoom room)].
Proof.
  intros Hs Hr Hne. rewrite (replay_step st sid room Hs).
  assert (pending st room = {[other]}) as -> by (unfold pending; by rewrite Hr).
  rewrite size_union by set_solver. rewrite !size_singleton. done.
Qed.

(** *** The handshake over a sequence of requests *)

Lemma both_asked_size (p1 p2 : Sid) (X : gset Sid) :
  p1 ≠ p2 →
  X ⊆ {[p1; p2]} →
  (size X =? 2) = bool_decide (p1 ∈ X ∧ p2 ∈ X).
Proof.
  intros Hne Hsub.
  assert (size ({[p1; p2]} : gset Sid) = 2) as H2.
  { rewrite size_union by (by apply disjoint_singleton_l, not_elem_of_singleton).
    by rewrite !size_singleton. }
  destruct (decide (p1 ∈ X ∧ p2 ∈ X)) as [[Ha Hb]|Hn].
  - rewrite bool_decide_true by done.
    assert (X = {[p1; p2]}) as ->; [|by rewrite H2].
    apply set_eq. intros x. split; [apply Hsub|].
    by intros [->%elem_of_singleton| ->%elem_of_singleton]%elem_of_union.
  - rewrite bool_decide_false by done.
    apply Nat.eqb_neq. intros Hsz. apply Hn.
    assert (X = {[p1; p2]}) as ->.
    { apply set_subseteq_size_eq; [done|]. by rewrite H2, Hsz. }
    split; apply elem_of_union; [left | right]; by apply elem_of_singleton.
Qed.

(** X18. In a room whose pending requests come from its two participants
    only, the code fires the restart on the very requests on which the
    handshake of the specification does. *)
Lemma replay_follows_handshake (room : string) (p1 p2 : Sid) (reqs : list Sid) :
  p1 ≠ p2 →
  Forall (λ s, s = p1 ∨ s = p2) reqs →
  ∀ st : State,
    truthy_room (session_of st p1) = Some room →
    truthy_room (session_of st p2) = Some room →
    pending st room ⊆ {[p1; p2]} →
    restarts reqs st = handshake_spec p1 p2 (pending st room) reqs.
Proof.
  intros Hne Hreqs. induction Hreqs as [|s reqs Hs _ IH]; intros st H1 H2 Hsub.
  - done.
  - assert (truthy_room (session_of st s) = Some room) as Hroom
      by (destruct Hs as [->| ->]; done).
    assert ({[s]} ∪ pending st room ⊆ ({[p1; p2]} : gset Sid)) as Hsub'.
    { apply union_subseteq. split; [|done].
      apply singleton_subseteq_l, elem_of_union.
      destruct Hs as [->| ->]; [left | right]; by apply elem_of_singleton. }
    simpl. rewrite (replay_step st s room Hroom).
    rewrite (both_asked_size p1 p2 _ Hne Hsub').
    destruct (bool_decide (p1 ∈ {[s]} ∪ pending st room
                           ∧ p2 ∈ {[s]} ∪ pending st room)); simpl.
    + f_equal.
      rewrite IH.
      * f_equal. unfold pending. simpl. by rewrite lookup_delete_eq.
      * done.
      * done.
      * unfold pending. simpl. rewrite lookup_delete_eq. simpl.
        apply empty_subseteq.
    + f_equal.
      rewrite IH.
      * f_equal. unfold pending at 1. simpl. by rewrite lookup_insert_eq.
      * done.
      * done.
      * unfold pending at 1. simpl. by rewrite lookup_insert_eq.
Qed.

(** ** quit *)

Lemma quit_ignored (st : State) (sid : Sid) :
  truthy_room (session_of st sid) = None →
  exec (quit sid) st = Ret tt st [].
Proof. unfold session_of. intros Hs. step_m. by rewrite Hs. Qed.

(** What [quit] does for a handle whose room name has at least three
    fields: the opponent is read off the second and third fields. When that
    handle is not connected the handler raises [KeyError] at line 125, after
    the broadcast and the deletions and before the queue is touched. *)
Lemma quit_peer_gone (st : State) (sid : Sid) (room s0 s1 s2 : string)
    (more : list string) :
  truthy_room (session_of st sid) = Some room →
  PyStr.py_split "_" room = s0 :: s1 :: s2 :: more →
  sessions st !! (if String.eqb sid s1 then s2 else s1) = None →
  exec (quit sid) st =
    Raise KeyError
      (set_replay_requests (delete room) (set_games (PyDict.del room) st))
      [mkEmit "opponent_left" ∅ (ToRoom room)].
Proof.
  intros Hs Hp Hc. unfold session_of in *. step_m.
  rewrite Hs, Hp. simpl. by rewrite Hc.
Qed.

(** When the handle read off the name is connected the handler returns. *)
Lemma quit_step (st : State) (sid : Sid) (room s0 s1 s2 : string)
    (more : list string) :
  truthy_room (session_of st sid) = Some room →
  PyStr.py_split "_" room = s0 :: s1 :: s2 :: more →
  is_Some (sessions st !! (if String.eqb sid s1 then s2 else s1)) →
  let opponent := if String.eqb sid s1 then s2 else s1 in
  exec (quit sid) st =
    Ret tt
      {| waiting :=
           if PyList.mem opponent (waiting st) then waiting st
           else waiting st ++ [opponent];
         games := PyDict.del room (games st);
         replay_requests := delete room (replay_requests st);
         sessions :=
           if bool_decide (is_Some (session_of st opponent !! "room"))
           then <[opponent := delete "room" (session_of st opponent)]> (sessions st)
           else sessions st;
         rooms :=
           match rooms st !! room with
           | Some s => <[room := s ∖ {[sid]}]> (rooms st)
           | None => rooms st
           end |}
      [mkEmit "opponent_left" ∅ (ToRoom room)].
Proof.
  intros Hs Hp [d Hd] opponent. subst opponent. unfold session_of in *. step_m.
  rewrite Hs, Hp. simpl. rewrite Hd. simpl.
  destruct (bool_decide _); simpl;
    destruct (PyList.mem _ (waiting st)); simpl; done.
Qed.


(** X21. The opponent is read off the name of the room, split at its
    underscores. For a room named after two different handles that contain no
    underscore, a quit from either of them whose session holds that name,
    while the other handle is connected, returns: it sends one
    [opponent_left] to the room, removes the game and the pending replay
    requests of the room if there are any, removes the room from the session
    of the other handle, appends the other handle to the waiting queue unless
    it is queued already, appends nothing else, and takes the quitting handle
    out of the room. *)
Theorem quit_requeues_opponent (st : State) (sid p1 p2 : Sid) :
  PyStr.contains "_" p1 = false →
  PyStr.contains "_" p2 = false →
  p1 ≠ p2 →
  sid = p1 ∨ sid = p2 →
  session_of st sid !! "room" = Some (room_name p1 p2) →
  is_Some (sessions st !! (if String.eqb sid p1 then p2 else p1)) →
  let room := room_name p1 p2 in
  let opponent := if String.eqb sid p1 then p2 else p1 in
  ∃ st' : State,
    exec (quit sid) st = Ret tt st' [mkEmit "opponent_left" ∅ (ToRoom room)]
    ∧ opponent ≠ sid ∧ (opponent = p1 ∨ opponent = p2)
    ∧ PyDict.get room (games st') = None
    ∧ replay_requests st' !! room = None
    ∧ session_of st' opponent !! "room" = None
    ∧ waiting st' =
        (if PyList.mem opponent (waiting st) then waiting st
         else waiting st ++ [opponent])
    ∧ sid ∉ members st' room.
Proof.
  intros H1 H2 Hne Hsid Hs Hc room opponent.
  pose proof (quit_step st sid room "room" p1 p2 []
                (room_name_truthy p1 p2 _ Hs) (split_room_name p1 p2 H1 H2) Hc)
    as Hq.
  simpl in Hq. fold opponent in Hq.
  eexists. split; [exact Hq|]. simpl.
  assert (opponent ≠ sid ∧ (opponent = p1 ∨ opponent = p2)) as [Ho1 Ho2].
  { subst opponent. destruct (String.eqb_spec sid p1) as [->|Hn].
    - split; [congruence | by right].
    - destruct Hsid as [->| ->]; [done|]. split; [congruence | by left]. }
  repeat split; try done.
  - apply get_del_eq.
  - apply lookup_delete_eq.
  - unfold session_of at 1. simpl.
    destruct (session_of st opponent !! "room") as [r|] eqn:Hr.
    + rewrite bool_decide_true by eauto.
      rewrite lookup_insert_eq. simpl. apply lookup_delete_eq.
    + rewrite bool_decide_false by (by intros [? ?]). exact Hr.
  - unfold members. simpl.
    destruct (rooms st !! room) as [s|] eqn:Hr.
    + rewrite lookup_insert_eq. simpl.
      apply not_elem_of_difference. right. by apply elem_of_singleton.
    + rewrite Hr. simpl. apply not_elem_of_empty.
Qed.

(** ** disconnect *)

(** With no game in the store, [disconnect] only drops the first occurrence
    of the handle from the waiting queue. *)
Lemma disconnect_queued_only (st : State) (sid : Sid) :
  games st = [] →
  exec (disconnect sid) st =
    Ret tt
      (if PyList.mem sid (waiting st)
       then set_waiting (PyList.remove sid) st else st)
      [].
Proof.
  intros Hg. step_m.
  destruct (PyList.mem sid (waiting st)); simpl; by rewrite Hg.
Qed.

(** When the first game of the store is that of the handle, it is torn
    down: one [opponent_left] to the room, the game and the pending requests
    removed. Sessions and room membership are not touched. *)
Lemma disconnect_first_game (st : State) (sid p1 p2 : Sid) (board : Board)
    (others : list (string * Board)) :
  PyStr.contains "_" p1 = false →
  PyStr.contains "_" p2 = false →
  sid = p1 ∨ sid = p2 →
  PyList.mem sid (waiting st) = false →
  games st = (room_name p1 p2, board) :: others →
  exec (disconnect sid) st =
    Ret tt
      (set_replay_requests (delete (room_name p1 p2))
         (set_games (PyDict.del (room_name p1 p2)) st))
      [mkEmit "opponent_left" ∅ (ToRoom (room_name p1 p2))].
Proof.
  intros H1 H2 Hsid Hw Hg.
  pose proof (split_room_name p1 p2 H1 H2) as Hp.
  remember (room_name p1 p2) as room eqn:Hroom.
  step_m. rewrite Hw, Hg. simpl. rewrite Hp.
  assert (String.eqb sid p1 || String.eqb sid p2 = true) as ->; [|done].
  destruct Hsid as [->| ->]; rewrite String.eqb_refl; by rewrite ?orb_true_r.
Qed.

(** X20. A game whose room name has more than two underscores, at the head
    of the store, stops the loop of [disconnect] with a [ValueError],
    whoever disconnects: nothing is torn down and nothing is emitted. *)
Lemma disconnect_bad_room (st : State) (sid : Sid) (room : string)
    (board : Board) (others : list (string * Board))
    (s0 s1 s2 s3 : string) (more : list string) :
  PyList.mem sid (waiting st) = false →
  games st = (room, board) :: others →
  PyStr.py_split "_" room = s0 :: s1 :: s2 :: s3 :: more →
  exec (disconnect sid) st = Raise ValueError st [].
Proof. intros Hw Hg Hp. step_m. rewrite Hw, Hg. simpl. by rewrite Hp. Qed.


End Handlers.

(** * The handlers on concrete runs *)

Section Scenarios.
Import Scripted.

(** Closed statements about runs are settled by evaluation, one conjunct
    at a time. *)
#[local] Ltac by_eval :=
  intros; repeat (split; [vm_compute; reflexivity|]); vm_compute; reflexivity.

(** C3. In the run [rematch] the last event creates the game of [A] and [B]
    in room [room_A_B], and the only replay request of [A] is older than
    that game. A single replay request of [B] then restarts the game: the
    request that [A] sent after quitting the first game of the same room was
    kept, and it counts as the agreement of [A]. *)
Theorem stale_request_restarts_rematch :
  let st := after rematch in
  let start c p :=
    mkEmit "start" {[ "fen" := fen initial; "your_color" := c ]} (ToSid p) in
  last (emitted rematch) = Some [start "white" "A"; start "black" "B"]
  ∧ PyDict.get "room_A_B" (games st) = Some initial
  ∧ pending st "room_A_B" = {["A"]}
  ∧ res_out (exec (replay "B") st) =
      [mkEmit "replay_start" {[ "fen" := fen initial ]} (ToRoom "room_A_B")]
  ∧ pending (res_state (exec (replay "B") st)) "room_A_B" = ∅.
Proof. by_eval. Qed.

(** C5. After [A] and [B] are paired, the disconnection of [A] sends
    [opponent_left] to the room and removes the game, and leaves the session
    of [B] attached to the room that is gone. *)
Theorem disconnect_keeps_opponent_attached :
  let st := after paired in
  let r := exec (disconnect "A") st in
  raised r = None
  ∧ res_out r = [opponent_left "room_A_B"]
  ∧ PyDict.get "room_A_B" (games (res_state r)) = None
  ∧ waiting (res_state r) = []
  ∧ session_of (res_state r) "B" !! "room" = Some "room_A_B".
Proof. by_eval. Qed.

(** C6. After [A] has quit its game with [B], the room has no game any
    more; a second quit of [A] sends [opponent_left] to the room again, and
    [B], still a member of the room, receives it a second time. *)
Theorem quit_twice_broadcasts_twice :
  let st := after (paired ++ [EvQuit "A"]) in
  emitted (paired ++ [EvQuit "A"; EvQuit "A"]) !! 2 = Some [opponent_left "room_A_B"]
  ∧ PyDict.get "room_A_B" (games st) = None
  ∧ exec (quit "A") st = Ret tt st [opponent_left "room_A_B"]
  ∧ recipients st (opponent_left "room_A_B") = {["B"]}.
Proof. by_eval. Qed.

(** C8. A handle that joins while it is alone in the queue is appended a
    second time and paired with itself: the queue is emptied, a game is
    created in room [room_A_A], and both [start] messages go to that one
    handle. *)
Theorem join_twice_pairs_with_itself :
  let st := after [EvJoin "A"] in
  let r := exec (join "A") st in
  let start c :=
    mkEmit "start" {[ "fen" := fen initial; "your_color" := c ]} (ToSid "A") in
  waiting st = ["A"]
  ∧ raised r = None
  ∧ res_out r = [start "white"; start "black"]
  ∧ waiting (res_state r) = []
  ∧ PyDict.get "room_A_A" (games (res_state r)) = Some initial
  ∧ session_of (res_state r) "A" = {[ "room" := "room_A_A"; "color" := "black" ]}.
Proof. by_eval. Qed.

(** C9. After [B] has disconnected from its game with [A], the room has
    neither a game nor pending replay requests; a replay request of [A] is
    then recorded as pending for that room. *)
Theorem replay_after_disconnect_is_recorded :
  let st := after (paired ++ [EvDisconnect "B"]) in
  let r := exec (replay "A") st in
  PyDict.get "room_A_B" (games st) = None
  ∧ replay_requests st !! "room_A_B" = None
  ∧ raised r = None
  ∧ res_out r = []
  ∧ replay_requests (res_state r) !! "room_A_B" = Some {["A"]}
  ∧ PyDict.get "room_A_B" (games (res_state r)) = None.
Proof. by_eval. Qed.

(** C4. The handler misses the opponent it means to find and requeue. The
    handle [a_b] is paired with [c] in room [room_a_b_c]; both are connected
    and attached to the room, whose game is running. On the quit of [a_b] the
    room name is split at its underscores and the opponent is taken to be
    [a], a handle that is not connected. The handler broadcasts
    [opponent_left], deletes the game, and raises [KeyError] when it asks
    for the session of [a]: the queue stays empty, so the opponent [c] is not
    requeued, [c] keeps its attachment to the room, and [a_b] is still a
    member of the room. *)
Theorem quit_underscore_misses_opponent :
  let st := after [EvJoin "a_b"; EvJoin "c"] in
  let r := exec (quit "a_b") st in
  session_of st "a_b" !! "room" = Some "room_a_b_c"
  ∧ session_of st "c" !! "room" = Some "room_a_b_c"
  ∧ PyDict.get "room_a_b_c" (games st) = Some initial
  ∧ members st "room_a_b_c" = {[ "a_b"; "c" ]}
  ∧ sessions st !! "a" = None
  ∧ raised r = Some KeyError
  ∧ res_out r = [mkEmit "opponent_left" ∅ (ToRoom "room_a_b_c")]
  ∧ PyDict.get "room_a_b_c" (games (res_state r)) = None
  ∧ waiting (res_state r) = []
  ∧ session_of (res_state r) "c" !! "room" = Some "room_a_b_c"
  ∧ members (res_state r) "room_a_b_c" = {[ "a_b"; "c" ]}.
Proof. by_eval. Qed.

(** Against C7: after the mate, a move request of [A] is a stray one, and it
    is answered with [invalid]. *)
Lemma move_after_mate_is_answered :
  let st := after mate in
  stray st "A"
  ∧ exec (move "A" (req "e2" "e4")) st =
      Ret tt st [mkEmit "invalid" {[ "uci" := "e2e4" ]} (ToSid "A")]
  ∧ exec (move "A" (req "e2" "e4")) st ≠ Ret tt st [].
Proof.
  intros st.
  assert (stray st "A") as Hs by (vm_compute; reflexivity).
  assert (exec (move "A" (req "e2" "e4")) st =
          Ret tt st [mkEmit "invalid" {[ "uci" := "e2e4" ]} (ToSid "A")])
    as Hm by (vm_compute; reflexivity).
  split; [exact Hs|]. split; [exact Hm|].
  rewrite Hm. clearbody st. clear. intros H. inversion H.
Qed.

(** ** The general statements at work *)

Lemma join_pairs_two_oldest_witness :
  waiting (after [EvJoin "A"]) ++ ["B"] = ["A"; "B"]
  ∧ ∃ st' : State,
      exec (join "B") (after [EvJoin "A"]) =
        Ret tt st'
          [mkEmit "start" {[ "fen" := fen initial; "your_color" := "white" ]} (ToSid "A");
           mkEmit "start" {[ "fen" := fen initial; "your_color" := "black" ]} (ToSid "B")]
      ∧ waiting st' = [].
Proof.
  assert (waiting (after [EvJoin "A"]) ++ ["B"] = ["A"; "B"]) as Hq
    by (vm_compute; reflexivity).
  split; [exact Hq|].
  destruct (join_pairs_two_oldest (after [EvJoin "A"]) "B" "A" "B" [] Hq)
    as (st' & Hr & Hw & _).
  exists st'. split; [exact Hr | exact Hw].
Defined.

Lemma move_legal_or_illegal_witness :
  session_of (after paired) "A" !! "room" = Some "room_A_B"
  ∧ PyDict.get "room_A_B" (games (after paired)) = Some initial
  ∧ from_uci (uci_of "f2" "f3" (req "f2" "f3" !! "promotion")) = Some "f2f3"
  ∧ legal initial "f2f3" = true
  ∧ ∃ st' : State,
      raised (exec (move "A" (req "f2" "f3")) (after paired)) = None
      ∧ res_state (exec (move "A" (req "f2" "f3")) (after paired)) = st'
      ∧ PyDict.get "room_A_B" (games st') = Some (push initial "f2f3").
Proof.
  assert (session_of (after paired) "A" !! "room" = Some "room_A_B") as Hs
    by (vm_compute; reflexivity).
  assert (PyDict.get "room_A_B" (games (after paired)) = Some initial) as Hg
    by (vm_compute; reflexivity).
  assert (req "f2" "f3" !! "from" = Some "f2") as Hf by (vm_compute; reflexivity).
  assert (req "f2" "f3" !! "to" = Some "f3") as Ht by (vm_compute; reflexivity).
  assert (from_uci (uci_of "f2" "f3" (req "f2" "f3" !! "promotion")) = Some "f2f3")
    as Hp by (vm_compute; reflexivity).
  assert (legal initial "f2f3" = true) as Hl by (vm_compute; reflexivity).
  split; [exact Hs|]. split; [exact Hg|]. split; [exact Hp|]. split; [exact Hl|].
  destruct (move_legal_or_illegal (after paired) "A" (req "f2" "f3")
              "room_A_B" initial "f2" "f3" "f2f3" Hs Hg Hf Ht Hp)
    as [Hlegal _].
  destruct (Hlegal Hl) as (st' & Hr & Hb & _).
  exists st'. rewrite Hr. split; [reflexivity|]. split; [reflexivity | exact Hb].
Defined.

Lemma move_malformed_raises_witness :
  session_of (after paired) "A" !! "room" = Some "room_A_B"
  ∧ PyDict.get "room_A_B" (games (after paired)) = Some initial
  ∧ ({[ "to" := "e4" ]} : Dict) !! "from" = None
  ∧ exec (move "A" {[ "to" := "e4" ]}) (after paired) =
      Raise KeyError (after paired) []
  ∧ from_uci (uci_of "e2" "e9" (req "e2" "e9" !! "promotion")) = None
  ∧ exec (move "A" (req "e2" "e9")) (after paired) =
      Raise ValueError (after paired) [].
Proof.
  assert (session_of (after paired) "A" !! "room" = Some "room_A_B") as Hs
    by (vm_compute; reflexivity).
  assert (PyDict.get "room_A_B" (games (after paired)) = Some initial) as Hg
    by (vm_compute; reflexivity).
  assert (({[ "to" := "e4" ]} : Dict) !! "from" = None) as Hf
    by (vm_compute; reflexivity).
  assert (from_uci (uci_of "e2" "e9" (req "e2" "e9" !! "promotion")) = None)
    as Hp by (vm_compute; reflexivity).
  split; [exact Hs|]. split; [exact Hg|]. split; [exact Hf|].
  split; [|split; [exact Hp|]].
  - destruct (move_malformed_raises (after paired) "A" {[ "to" := "e4" ]}
                "room_A_B" initial Hs Hg) as (Hk & _ & _).
    exact (Hk (or_introl Hf)).
  - destruct (move_malformed_raises (after paired) "A" (req "e2" "e9")
                "room_A_B" initial Hs Hg) as (_ & Hv & _).
    apply (Hv "e2" "e9"); [vm_compute; reflexivity | vm_compute; reflexivity | exact Hp].
Defined.

Lemma quit_requeues_opponent_witness :
  PyStr.contains "_" "A" = false
  ∧ PyStr.contains "_" "B" = false
  ∧ "A" ≠ "B"
  ∧ session_of (after paired) "A" !! "room" = Some (room_name "A" "B")
  ∧ is_Some (sessions (after paired) !! "B")
  ∧ ∃ st' : State,
      exec (quit "A") (after paired) =
        Ret tt st' [mkEmit "opponent_left" ∅ (ToRoom (room_name "A" "B"))]
      ∧ session_of st' "B" !! "room" = None
      ∧ waiting st' = ["B"].
Proof.
  assert (PyStr.contains "_" "A" = false) as H1 by (vm_compute; reflexivity).
  assert (PyStr.contains "_" "B" = false) as H2 by (vm_compute; reflexivity).
  assert ("A" ≠ "B") as Hne by discriminate.
  assert (session_of (after paired) "A" !! "room" = Some (room_name "A" "B")) as Hs
    by (vm_compute; reflexivity).
  assert (is_Some (sessions (after paired) !! "B")) as Hc
    by (eexists; vm_compute; reflexivity).
  split; [exact H1|]. split; [exact H2|]. split; [exact Hne|]. split; [exact Hs|].
  split; [exact Hc|].
  destruct (quit_requeues_opponent (after paired) "A" "A" "B"
              H1 H2 Hne (or_introl eq_refl) Hs Hc)
    as (st' & Hr & _ & _ & _ & _ & Ho & Hw & _).
  exists st'. split; [exact Hr|]. split; [exact Ho|].
  rewrite Hw. vm_compute. reflexivity.
Defined.

Lemma move_without_game_is_silent_witness :
  session_of (after (paired ++ [EvQuit "A"])) "A" !! "room" = Some "room_A_B"
  ∧ PyDict.get "room_A_B" (games (after (paired ++ [EvQuit "A"]))) = None
  ∧ raised (exec (move "A" (req "f2" "f3")) (after (paired ++ [EvQuit "A"]))) = None
  ∧ res_out (exec (move "A" (req "f2" "f3")) (after (paired ++ [EvQuit "A"]))) = [].
Proof.
  assert (session_of (after (paired ++ [EvQuit "A"])) "A" !! "room"
          = Some "room_A_B") as Hs by (vm_compute; reflexivity).
  assert (PyDict.get "room_A_B" (games (after (paired ++ [EvQuit "A"]))) = None)
    as Hg by (vm_compute; reflexivity).
  split; [exact Hs|]. split; [exact Hg|].
  destruct (move_without_game_is_silent _ "A" (req "f2" "f3") "room_A_B" Hs Hg
              _ eq_refl) as (Hn & _ & Hout).
  split; [exact Hn | exact Hout].
Defined.

End Scenarios.

(** * Further properties of the handlers *)

Section RoomNames.
Context `{E : RulesEngine}.
Import PyStr.

Lemma py_split_length (sep : ascii) (s : string) :
  length (py_split sep s) = S (count_sep sep s).
Proof.
  induction s as [|c s IH]; simpl; [done|].
  destruct (Ascii.eqb c sep); simpl; [by rewrite IH|].
  destruct (py_split sep s); simpl in *; [discriminate IH | exact IH].
Qed.

Lemma count_sep_app (sep : ascii) (a b : string) :
  count_sep sep (a +:+ b) = count_sep sep a + count_sep sep b.
Proof.
  induction a as [|c a IH]; simpl; [done|]. rewrite IH. lia.
Qed.

Lemma contains_count (sep : ascii) (s : string) :
  contains sep s = false ↔ count_sep sep s = 0.
Proof.
  induction s as [|c s IH]; simpl; [done|].
  destruct (Ascii.eqb c sep); simpl; [split; discriminate | exact IH].
Qed.

Lemma append_inv_head (a b c : string) : a +:+ b = a +:+ c → b = c.
Proof.
  induction a as [|x a IH]; simpl; [done|]. intros [= H]. by apply IH.
Qed.

Lemma clean_prefix_inj (p1 q1 p2 q2 : string) :
  clean p1 → clean q1 →
  p1 +:+ String "_" p2 = q1 +:+ String "_" q2 →
  p1 = q1 ∧ p2 = q2.
Proof.
  unfold clean. revert q1.
  induction p1 as [|c p1 IH]; intros [|c' q1]; simpl.
  - by intros _ _ [= ->].
  - intros _ [Hc _]%orb_false_iff [= <- _]. discriminate Hc.
  - intros [Hc _]%orb_false_iff _ [= -> _]. discriminate Hc.
  - intros [_ Hp]%orb_false_iff [_ Hq]%orb_false_iff [= -> Heq].
    destruct (IH q1 Hp Hq Heq) as [-> ->]. done.
Qed.

(** X1. The name of a room splits at its underscores into three fields plus
    one for every underscore in the two handles. So the test
    [len(parts) < 3] of [quit] never holds for a room made by [join], and
    the unpacking of [disconnect] succeeds exactly when neither handle
    contains an underscore. *)
Theorem room_name_fields (p1 p2 : Sid) :
  length (py_split "_" (room_name p1 p2))
    = 3 + count_sep "_" p1 + count_sep "_" p2
  ∧ (length (py_split "_" (room_name p1 p2)) = 3 ↔ clean p1 ∧ clean p2).
Proof.
  assert (length (py_split "_" (room_name p1 p2))
          = 3 + count_sep "_" p1 + count_sep "_" p2) as Hlen.
  { rewrite py_split_length. unfold room_name.
    rewrite !count_sep_app. simpl. lia. }
  split; [exact Hlen|]. rewrite Hlen. unfold clean.
  rewrite !contains_count. lia.
Qed.

(** X2. Two pairs of handles get the same room name only if they are the
    same pair, provided the first handle of each pair has no underscore. *)
Theorem room_name_inj (p1 p2 q1 q2 : Sid) :
  clean p1 → clean q1 →
  room_name p1 p2 = room_name q1 q2 →
  p1 = q1 ∧ p2 = q2.
Proof.
  intros Hp Hq Heq. unfold room_name in Heq.
  apply append_inv_head in Heq.
  by apply clean_prefix_inj.
Qed.

End RoomNames.

Section Frames.
Context `{E : RulesEngine}.

#[local] Ltac open_m :=
  unfold exec, join, move, replay, quit, disconnect, build_uci, get_session,
    save_session, enter_room, leave_room, pop0, emit, gets, modify, raise, skip,
    mbind, M_bind, mret, M_ret; simpl.

(** ** The loop of disconnect *)

(** Whatever the games, the loop raises nothing but [ValueError], leaves the
    queue, the sessions and the room membership alone, and emits at most one
    message, an [opponent_left] to a room that has a game; when it raises, it
    has changed and emitted nothing. *)
Lemma disconnect_loop_frame (sid : Sid) (items : list (string * Board)) :
  ∀ (st : State) (out : list Emit),
    let r := disconnect_loop sid items st out in
    (raised r = None ∨ raised r = Some ValueError)
    ∧ waiting (res_state r) = waiting st
    ∧ sessions (res_state r) = sessions st
    ∧ rooms (res_state r) = rooms st
    ∧ (res_out r = out
       ∨ ∃ room : string, room ∈ items.*1 ∧ res_out r = out ++ [left_msg room])
    ∧ (is_Some (raised r) → res_state r = st ∧ res_out r = out).
Proof.
  induction items as [|[room board] items IH]; intros st out; simpl.
  - split_and!; auto; by intros [? ?].
  - destruct (PyStr.py_split "_" room) as [|s0 [|s1 [|s2 [|s3 more]]]]; simpl;
      try (split_and!; auto; fail).
    destruct (String.eqb sid s1 || String.eqb sid s2); simpl.
    + open_m. split_and!; auto; try (by intros [? ?]).
      right. exists room. split; [by left | done].
    + destruct (IH st out) as (Hr & Hw & Hs & Hm & Ho & He).
      split_and!; auto; try (by apply He).
      destruct Ho as [Ho|(room' & Hin & Ho)]; [by left|].
      right. exists room'. split; [by right | done].
Qed.

(** X3. [disconnect] raises nothing but [ValueError], which comes from the
    unpacking of the fields of a room name at line 143. When it raises it has
    emitted nothing and has deleted no game and no pending replay request:
    only the queue may have lost the handle. *)
Theorem disconnect_raises_only (sid : Sid) (st : State) :
  let r := exec (disconnect sid) st in
  raised r = None
  ∨ (raised r = Some ValueError
     ∧ res_out r = []
     ∧ games (res_state r) = games st
     ∧ replay_requests (res_state r) = replay_requests st).
Proof.
  open_m. destruct (PyList.mem sid (waiting st)); simpl;
    match goal with |- context [disconnect_loop ?s ?i ?st' ?o] =>
      destruct (disconnect_loop_frame s i st' o) as ([Hr|Hr] & _ & _ & _ & _ & He)
    end; simpl in *; auto;
    right; (destruct He as [-> ->]; [rewrite Hr; eauto|]); done.
Qed.

(** X4. [disconnect] never adds a handle to the queue, never touches a
    session or the membership of a room, and emits at most one message, an
    [opponent_left] to a room that had a game: the queue loses the first
    occurrence of the handle if it was queued, and nothing else changes
    there. *)
Theorem disconnect_frame (sid : Sid) (st : State) :
  let r := exec (disconnect sid) st in
  waiting (res_state r) =
    (if PyList.mem sid (waiting st) then PyList.remove sid (waiting st)
     else waiting st)
  ∧ sessions (res_state r) = sessions st
  ∧ rooms (res_state r) = rooms st
  ∧ (res_out r = []
     ∨ ∃ room : string, room ∈ (games st).*1 ∧ res_out r = [left_msg room]).
Proof.
  open_m. destruct (PyList.mem sid (waiting st)); simpl;
    match goal with |- context [disconnect_loop ?s ?i ?st' ?o] =>
      destruct (disconnect_loop_frame s i st' o) as (_ & Hw & Hs & Hm & Ho & _)
    end; simpl in *; rewrite Hw, Hs, Hm; repeat split; auto.
Qed.

End Frames.

Section MoveFrame.
Context `{E : RulesEngine}.

#[local] Ltac open_m :=
  unfold exec, move, disconnect, build_uci, get_session, emit, gets, modify,
    raise, skip, mbind, M_bind, mret, M_ret; simpl.

(** Replacing the value of a key that is present keeps the keys and their
    order. *)
Lemma set_present_keys {V} (k : string) (v v' : V) (d : list (string * V)) :
  PyDict.get k d = Some v → (PyDict.set k v' d).*1 = d.*1.
Proof.
  induction d as [|[k0 v0] d IH]; simpl; [done|].
  destruct (String.eqb_spec k k0) as [->|Hne]; simpl; [done|].
  intros Hg. f_equal. by apply IH.
Qed.

Lemma move_keeps (sid : Sid) (data : Dict) (st : State) :
  let st' := res_state (exec (move sid data) st) in
  waiting st' = waiting st
  ∧ sessions st' = sessions st
  ∧ replay_requests st' = replay_requests st
  ∧ rooms st' = rooms st
  ∧ (games st').*1 = (games st).*1
  ∧ ∀ room' : string,
      session_of st sid !! "room" ≠ Some room' →
      PyDict.get room' (games st') = PyDict.get room' (games st).
Proof.
  unfold session_of. open_m.
  destruct (default ∅ (sessions st !! sid) !! "room") as [room|]; simpl; [|done].
  destruct (PyDict.get room (games st)) as [board|] eqn:Hg; simpl; [|done].
  destruct (data !! "from") as [f|]; simpl; [|done].
  destruct (data !! "to") as [t|]; simpl; [|done].
  destruct (data !! "promotion") as [p|]; simpl;
    (match goal with |- context [from_uci ?u] => destruct (from_uci u) as [mv|] end;
     simpl; [|done];
     destruct (legal board mv); simpl; [|done];
     destruct (is_game_over (push board mv)); simpl;
     (split_and!; try done;
      [ by apply (set_present_keys room board)
      | intros room' Hne; apply get_set_ne; congruence ])).
Qed.

(** X5. Whatever the request, [move] leaves the queue, the sessions, the
    pending replay requests and the room membership as they are, creates and
    deletes no game, and leaves the board of every room other than that of
    the requester as it is. *)
Theorem move_frame (sid : Sid) (data : Dict) (st : State) :
  let st' := res_state (exec (move sid data) st) in
  waiting st' = waiting st
  ∧ sessions st' = sessions st
  ∧ replay_requests st' = replay_requests st
  ∧ rooms st' = rooms st
  ∧ (games st').*1 = (games st).*1
  ∧ ∀ room' : string,
      session_of st sid !! "room" ≠ Some room' →
      PyDict.get room' (games st') = PyDict.get room' (games st).
Proof. apply move_keeps. Qed.

(** [l.remove(x)] takes one occurrence of [x] away and no other element. *)
Lemma remove_count (x y : string) (l : list string) :
  count_occ string_dec (PyList.remove x l) y =
    count_occ string_dec l y
    - (if PyList.mem x l && bool_decide (x = y) then 1 else 0).
Proof.
  induction l as [|z l IH]; simpl; [done|].
  destruct (String.eqb_spec x z) as [->|Hne]; simpl.
  - destruct (string_dec z y) as [->|Hzy].
    + rewrite bool_decide_true by done. lia.
    + rewrite bool_decide_false by done. lia.
  - rewrite IH. destruct (string_dec z y) as [->|Hzy]; [|done].
    rewrite bool_decide_false by done. rewrite andb_false_r. lia.
Qed.

(** X6. After the disconnection of a handle, the queue holds that handle
    once less than before, if it held it, and every other handle as often as
    before. In particular a handle that was queued twice is still queued. *)
Theorem disconnect_queue_count (sid x : Sid) (st : State) :
  count_occ string_dec (waiting (res_state (exec (disconnect sid) st))) x =
    count_occ string_dec (waiting st) x
    - (if bool_decide (sid = x ∧ sid ∈ waiting st) then 1 else 0).
Proof.
  assert (waiting (res_state (exec (disconnect sid) st)) =
          if PyList.mem sid (waiting st) then PyList.remove sid (waiting st)
          else waiting st) as ->.
  { open_m. destruct (PyList.mem sid (waiting st)); simpl;
      match goal with |- context [disconnect_loop ?s ?i ?st' ?o] =>
        destruct (disconnect_loop_frame s i st' o) as (_ & Hw & _)
      end; exact Hw. }
  destruct (PyList.mem sid (waiting st)) eqn:Hm.
  - rewrite remove_count, Hm. simpl.
    apply mem_elem_of in Hm.
    destruct (decide (sid = x)) as [->|Hne].
    + by rewrite !bool_decide_true by done.
    + rewrite (bool_decide_false (sid = x)) by done.
      by rewrite (bool_decide_false (sid = x ∧ _)) by (by intros [? _]).
  - rewrite bool_decide_false; [lia|].
    intros [_ Hin%mem_elem_of]. congruence.
Qed.

End MoveFrame.

Section Invariants.
Context `{E : RulesEngine}.

#[local] Ltac open_m :=
  unfold exec, join, quit, disconnect, get_session, get_session_of,
    save_session, enter_room, leave_room, pop0, emit, gets, modify, raise, skip,
    mbind, M_bind, mret, M_ret; simpl.

(** A property of states kept by every event of a kind holds along every
    run of events of that kind. *)
Lemma run_invariant (P : State → Prop) (Q : Event → Prop) :
  (∀ st ev, P st → Q ev →
     P (depart ev (res_state (exec (handler ev) (arrive ev st))))) →
  ∀ evs st, Forall Q evs → P st → P (fst (run evs st)).
Proof.
  intros Hstep evs. induction evs as [|ev evs IH]; intros st Hq Hp; [done|].
  apply Forall_cons in Hq as [Hev Hq].
  rewrite run_cons. simpl. apply IH; [done|]. by apply Hstep.
Qed.

(** The two ways of [join]. *)
Lemma join_cases (sid : Sid) (st : State) :
  (waiting st = [] ∧ exec (join sid) st = Ret tt (set_waiting (λ _, [sid]) st) [])
  ∨ ∃ (p1 p2 : Sid) (rest : list Sid),
      waiting st ++ [sid] = p1 :: p2 :: rest
      ∧ res_state (exec (join sid) st) =
          {| waiting := rest;
             games := PyDict.set (room_name p1 p2) initial (games st);
             replay_requests := replay_requests st;
             sessions :=
               <[p2 := {[ "room" := room_name p1 p2; "color" := "black" ]}]>
                 (<[p1 := {[ "room" := room_name p1 p2; "color" := "white" ]}]>
                    (sessions st));
             rooms := rooms (res_state (exec (join sid) st)) |}.
Proof.
  destruct (waiting st) as [|p w] eqn:Hw.
  - left. split; [done|]. by apply join_waits.
  - right. destruct (w ++ [sid]) as [|q rest] eqn:Hq.
    { by destruct w. }
    exists p, q, rest. split; [simpl; by rewrite Hq|].
    rewrite (join_pairs st sid p q rest) by (rewrite Hw; simpl; by rewrite Hq).
    done.
Qed.

(** The three ways of [quit]. *)
Lemma quit_cases (sid : Sid) (st : State) :
  exec (quit sid) st = Ret tt st []
  ∨ (∃ (room s0 s1 s2 : string) (more : list string),
      truthy_room (session_of st sid) = Some room
      ∧ PyStr.py_split "_" room = s0 :: s1 :: s2 :: more
      ∧ sessions st !! (if String.eqb sid s1 then s2 else s1) = None
      ∧ exec (quit sid) st =
          Raise KeyError
            (set_replay_requests (delete room) (set_games (PyDict.del room) st))
            [mkEmit "opponent_left" ∅ (ToRoom room)])
  ∨ ∃ (room s0 s1 s2 : string) (more : list string),
      truthy_room (session_of st sid) = Some room
      ∧ PyStr.py_split "_" room = s0 :: s1 :: s2 :: more
      ∧ let opponent := if String.eqb sid s1 then s2 else s1 in
        exec (quit sid) st =
          Ret tt
            {| waiting :=
                 if PyList.mem opponent (waiting st) then waiting st
                 else waiting st ++ [opponent];
               games := PyDict.del room (games st);
               replay_requests := delete room (replay_requests st);
               sessions :=
                 if bool_decide (is_Some (session_of st opponent !! "room"))
                 then <[opponent := delete "room" (session_of st opponent)]>
                        (sessions st)
                 else sessions st;
               rooms :=
                 match rooms st !! room with
                 | Some s => <[room := s ∖ {[sid]}]> (rooms st)
                 | None => rooms st
                 end |}
            [mkEmit "opponent_left" ∅ (ToRoom room)].
Proof.
  destruct (truthy_room (session_of st sid)) as [room|] eqn:Hs.
  - destruct (PyStr.py_split "_" room) as [|s0 [|s1 [|s2 more]]] eqn:Hp.
    + left. unfold session_of in Hs. open_m. by rewrite Hs, Hp.
    + left. unfold session_of in Hs. open_m. by rewrite Hs, Hp.
    + left. unfold session_of in Hs. open_m. by rewrite Hs, Hp.
    + right.
      destruct (sessions st !! (if String.eqb sid s1 then s2 else s1))
        as [d|] eqn:Hc.
      * right. exists room, s0, s1, s2, more. split; [done|]. split; [done|].
        apply (quit_step st sid room s0 s1 s2 more); [done | done |].
        rewrite Hc. eauto.
      * left. exists room, s0, s1, s2, more. split_and!; [done | done | done |].
        by apply (quit_peer_gone st sid room s0 s1 s2 more).
  - left. by apply quit_ignored.
Qed.

(** What the loop of [disconnect] does to the games and to the pending
    requests: nothing, or it deletes one room from both. *)
Lemma disconnect_loop_stores (sid : Sid) (items : list (string * Board)) :
  ∀ (st : State) (out : list Emit),
    let st' := res_state (disconnect_loop sid items st out) in
    (games st' = games st ∧ replay_requests st' = replay_requests st)
    ∨ ∃ room : string,
        games st' = PyDict.del room (games st)
        ∧ replay_requests st' = delete room (replay_requests st).
Proof.
  induction items as [|[room board] items IH]; intros st out; simpl; [by left|].
  destruct (PyStr.py_split "_" room) as [|s0 [|s1 [|s2 [|s3 more]]]]; simpl;
    try (by left).
  destruct (String.eqb sid s1 || String.eqb sid s2); simpl.
  - right. by exists room.
  - apply IH.
Qed.

Lemma disconnect_stores (sid : Sid) (st : State) :
  let st' := res_state (exec (disconnect sid) st) in
  (games st' = games st ∧ replay_requests st' = replay_requests st)
  ∨ ∃ room : string,
      games st' = PyDict.del room (games st)
      ∧ replay_requests st' = delete room (replay_requests st).
Proof.
  open_m. destruct (PyList.mem sid (waiting st)); simpl;
    match goal with |- context [disconnect_loop ?s ?i ?st' ?o] =>
      destruct (disconnect_loop_stores s i st' o) as [Hl|Hl]
    end; auto.
Qed.

(** ** Pending replay requests *)

Lemma one_pending_delete (room : string) (rr : gmap string (gset Sid)) :
  (∀ r S, rr !! r = Some S → size S = 1) →
  ∀ r S, delete room rr !! r = Some S → size S = 1.
Proof.
  intros Hrr r S. rewrite lookup_delete. case_decide; [done|]. apply Hrr.
Qed.

Lemma one_pending_step (st : State) (ev : Event) :
  one_pending st → one_pending (res_state (exec (handler ev) st)).
Proof.
  unfold one_pending. intros Hinv.
  destruct ev as [sid|sid data|sid|sid|sid|sid]; simpl.
  - destruct (join_cases sid st) as [[_ ->]|(p1 & p2 & rest & _ & ->)]; done.
  - destruct (move_keeps sid data st) as (_ & _ & -> & _). done.
  - destruct (truthy_room (session_of st sid)) as [room|] eqn:Hs.
    + rewrite (replay_step st sid room Hs).
      destruct (size ({[sid]} ∪ pending st room) =? 2) eqn:Hsz; simpl.
      * by apply one_pending_delete.
      * intros r S. rewrite lookup_insert. case_decide as Hr; [|apply Hinv].
        intros [= <-]. apply Nat.eqb_neq in Hsz.
        unfold pending in *.
        destruct (replay_requests st !! room) as [S0|] eqn:H0.
        -- change (default ∅ (Some S0)) with S0 in *.
           pose proof (Hinv room S0 H0) as H1.
           destruct (decide (sid ∈ S0)) as [Hin|Hnin].
           ++ rewrite subseteq_union_1_L; [done|].
              by apply singleton_subseteq_l.
           ++ exfalso. apply Hsz.
              rewrite size_union by (by apply disjoint_singleton_l).
              by rewrite size_singleton, H1.
        -- change (default ∅ None) with (∅ : gset Sid).
           rewrite (right_id_L ∅ (∪)). apply size_singleton.
    + by rewrite (replay_ignored st sid Hs).
  - destruct (quit_cases sid st)
      as [->|[(room & s0 & s1 & s2 & more & _ & _ & _ & ->)
             |(room & s0 & s1 & s2 & more & _ & _ & ->)]];
      [done | |]; simpl; by apply one_pending_delete.
  - destruct (disconnect_stores sid st) as [[_ ->]|(room & _ & ->)]; [done|].
    by apply one_pending_delete.
  - done.
Qed.

Lemma one_pending_around (st : State) (ev : Event) :
  one_pending st →
  one_pending (depart ev (res_state (exec (handler ev) (arrive ev st)))).
Proof.
  intros Hinv. unfold one_pending. rewrite depart_replay_requests.
  apply one_pending_step. unfold one_pending.
  by rewrite arrive_replay_requests.
Qed.

(** X7. Along every run from a fresh server, every pending set of replay
    requests holds exactly one handle: a set is created with its first
    request and deleted with the second or with the room. *)
Theorem pending_sets_are_singletons (evs : list Event) (room : string)
    (asked : gset Sid) :
  replay_requests (fst (run evs init)) !! room = Some asked →
  size asked = 1.
Proof.
  revert room asked. change (one_pending (fst (run evs init))).
  apply (run_invariant one_pending (λ _, True)).
  - intros st ev Hinv _. by apply one_pending_around.
  - by apply Forall_true.
  - intros room asked. simpl. by rewrite lookup_empty.
Qed.

End Invariants.

Section CleanRuns.
Context `{E : RulesEngine}.

#[local] Ltac open_m :=
  unfold exec, disconnect, emit, gets, modify, raise, skip,
    mbind, M_bind, mret, M_ret; simpl.

Lemma Forall_set {V} (P : string * V → Prop) (k : string) (v : V)
    (d : list (string * V)) :
  Forall P d → P (k, v) → Forall P (PyDict.set k v d).
Proof.
  intros Hd Hk. induction Hd as [|[k0 v0] d H0 Hd IH]; simpl.
  - by constructor.
  - destruct (String.eqb k k0); by constructor.
Qed.

Lemma Forall_del {V} (P : string * V → Prop) (k : string)
    (d : list (string * V)) :
  Forall P d → Forall P (PyDict.del k d).
Proof.
  intros Hd. induction Hd as [|[k0 v0] d H0 Hd IH]; simpl; [done|].
  destruct (String.eqb k k0); [done | by constructor].
Qed.

Lemma Forall_remove (P : string → Prop) (x : string) (l : list string) :
  Forall P l → Forall P (PyList.remove x l).
Proof.
  intros Hl. induction Hl as [|y l Hy Hl IH]; simpl; [done|].
  destruct (String.eqb x y); [done | by constructor].
Qed.

Lemma Forall_keys {V} (P : string → Prop) (d : list (string * V)) :
  Forall (λ kv, P kv.1) d ↔ Forall P d.*1.
Proof.
  induction d as [|[k v] d IH]; simpl.
  - split; constructor.
  - rewrite !Forall_cons, IH. done.
Qed.

Lemma truthy_room_lookup (d : Dict) (room : string) :
  truthy_room d = Some room → d !! "room" = Some room.
Proof.
  unfold truthy_room. destruct (d !! "room") as [r|]; [|done].
  destruct (String.eqb r ""); [done|]. by intros [= ->].
Qed.

Lemma clean_room_split (room : string) :
  clean_room room →
  ∃ p1 p2 : Sid,
    clean p1 ∧ clean p2 ∧ PyStr.py_split "_" room = ["room"; p1; p2].
Proof.
  intros (p1 & p2 & H1 & H2 & ->). exists p1, p2.
  split; [done|]. split; [done|]. by apply split_room_name.
Qed.

(** Over games whose rooms are made of handles without underscore, the
    loop of [disconnect] returns. *)
Lemma disconnect_loop_clean (sid : Sid) (items : list (string * Board)) :
  Forall (λ kv, clean_room kv.1) items →
  ∀ (st : State) (out : list Emit),
    raised (disconnect_loop sid items st out) = None.
Proof.
  intros Hitems. induction Hitems as [|[room board] items Hroom _ IH];
    intros st out; simpl; [done|].
  destruct (clean_room_split room Hroom) as (p1 & p2 & _ & _ & ->).
  destruct (String.eqb sid p1 || String.eqb sid p2); simpl; [done|]. apply IH.
Qed.

Lemma clean_state_step (st : State) (ev : Event) :
  clean_state st → clean (sid_of ev) →
  clean_state (res_state (exec (handler ev) st)).
Proof.
  intros (Hw & Hg & Hs) Hsid.
  destruct ev as [sid|sid data|sid|sid|sid|sid]; simpl in *.
  - destruct (join_cases sid st) as [[_ ->]|(p1 & p2 & rest & Hq & ->)].
    + split_and!; simpl; [by repeat constructor | done | done].
    + assert (Forall clean (p1 :: p2 :: rest)) as Hall.
      { rewrite <- Hq. apply Forall_app. split; [done | by repeat constructor]. }
      apply Forall_cons in Hall as [H1 Hall].
      apply Forall_cons in Hall as [H2 Hrest].
      assert (clean_room (room_name p1 p2)) as Hroom by (by exists p1, p2).
      split_and!; simpl; [done | by apply Forall_set |].
      intros x room. unfold session_of. simpl.
      rewrite lookup_insert. case_decide; simpl.
      { rewrite lookup_insert_eq. by intros [= <-]. }
      rewrite lookup_insert. case_decide; simpl.
      { rewrite lookup_insert_eq. by intros [= <-]. }
      apply Hs.
  - destruct (move_keeps sid data st) as (Hw' & Hs' & _ & _ & Hk & _).
    split_and!.
    + by rewrite Hw'.
    + apply Forall_keys. rewrite Hk. by apply Forall_keys.
    + intros x room. unfold session_of. rewrite Hs'. apply Hs.
  - destruct (truthy_room (session_of st sid)) as [room|] eqn:Hroom.
    + rewrite (replay_step st sid room Hroom).
      destruct (size ({[sid]} ∪ pending st room) =? 2); simpl;
        [|by split_and!].
      split_and!; simpl; [done | | done].
      apply Forall_set; [done|]. simpl.
      apply (Hs sid). by apply truthy_room_lookup.
    + rewrite (replay_ignored st sid Hroom). by split_and!.
  - destruct (quit_cases sid st)
      as [->|[(room & s0 & s1 & s2 & more & _ & _ & _ & ->)
             |(room & s0 & s1 & s2 & more & Hroom & Hsplit & ->)]];
      [by split_and! | split_and!; simpl; [done | by apply Forall_del | done] |].
    assert (clean_room room) as Hclean
      by (apply (Hs sid); by apply truthy_room_lookup).
    destruct (clean_room_split room Hclean) as (p1 & p2 & H1 & H2 & Hp).
    rewrite Hp in Hsplit. injection Hsplit as _ <- <- _.
    split_and!; simpl.
    + destruct (PyList.mem _ (waiting st)); [done|].
      apply Forall_app. split; [done|]. constructor; [|done].
      by destruct (String.eqb sid p1).
    + by apply Forall_del.
    + intros x room'. unfold session_of at 1. simpl.
      destruct (bool_decide _); [|apply Hs].
      rewrite lookup_insert. case_decide; simpl; [|apply Hs].
      by rewrite lookup_delete_eq.
  - destruct (disconnect_stores sid st) as [[Hg' _]|(room & Hg' & _)];
      (split_and!;
       [ | rewrite Hg'; try apply Forall_del; done | ]).
    all: revert Hw Hs; open_m;
      destruct (PyList.mem sid (waiting st)); simpl;
      match goal with |- context [disconnect_loop ?s ?i ?st' ?o] =>
        destruct (disconnect_loop_frame s i st' o) as (_ & Hw' & Hs' & _)
      end; intros Hw Hs.
    all: try (rewrite Hw'; simpl; try apply Forall_remove; done).
    all: intros x r; unfold session_of; rewrite Hs'; apply Hs.
  - by split_and!.
Qed.

Lemma clean_state_around (st : State) (ev : Event) :
  clean_state st → clean (sid_of ev) →
  clean_state (depart ev (res_state (exec (handler ev) (arrive ev st)))).
Proof.
  intros (Hw & Hg & Hs) Hsid.
  assert (clean_state (arrive ev st)) as Ha.
  { split_and!.
    - by rewrite arrive_waiting.
    - by rewrite arrive_games.
    - intros x room. rewrite arrive_session_of. apply Hs. }
  pose proof (clean_state_step (arrive ev st) ev Ha Hsid) as (Hw' & Hg' & Hs').
  split_and!.
  - by rewrite depart_waiting.
  - by rewrite depart_games.
  - intros x room. destruct ev as [sid|sid data|sid|sid|sid|sid];
      try apply Hs'.
    unfold session_of. simpl. rewrite lookup_delete. case_decide; [done|].
    apply Hs'.
Qed.

(** X8. In a run from a fresh server in which no handle contains an
    underscore, a disconnection, of any handle, returns: the unpacking of
    the room names cannot fail. *)
Theorem clean_runs_disconnect_returns (evs : list Event) (sid : Sid) :
  Forall (λ ev, clean (sid_of ev)) evs →
  raised (exec (disconnect sid) (fst (run evs init))) = None.
Proof.
  intros Hevs.
  assert (clean_state (fst (run evs init))) as (_ & Hg & _).
  { apply (run_invariant clean_state (λ ev, clean (sid_of ev))); [|done|].
    - intros st ev. apply clean_state_around.
    - split_and!; simpl; [constructor | constructor |].
      intros x room. unfold session_of. simpl. by rewrite lookup_empty. }
  open_m. destruct (PyList.mem sid _); simpl; by apply disconnect_loop_clean.
Qed.

End CleanRuns.

Section AfterQuit.
Context `{E : RulesEngine}.

(** In a room made of two different handles, the opponent of one is the
    other. *)
Lemma opponent_other (sid p1 p2 : Sid) :
  p1 ≠ p2 → sid = p1 ∨ sid = p2 →
  (if String.eqb sid p1 then p2 else p1) ≠ sid.
Proof.
  intros Hne Hsid. destruct (String.eqb_spec sid p1) as [->|Hn]; [congruence|].
  destruct Hsid as [->| ->]; [done | congruence].
Qed.

(** The state after the quit of a participant of a room made of two
    different handles without underscore, the other of which is connected. *)
Lemma quit_clean_pair (st : State) (sid p1 p2 : Sid) :
  clean p1 → clean p2 → p1 ≠ p2 → sid = p1 ∨ sid = p2 →
  session_of st sid !! "room" = Some (room_name p1 p2) →
  is_Some (sessions st !! (if String.eqb sid p1 then p2 else p1)) →
  let room := room_name p1 p2 in
  let opponent := if String.eqb sid p1 then p2 else p1 in
  let st' := res_state (exec (quit sid) st) in
  opponent ≠ sid
  ∧ exec (quit sid) st = Ret tt st' [left_msg room]
  ∧ waiting st' =
      (if PyList.mem opponent (waiting st) then waiting st
       else waiting st ++ [opponent])
  ∧ PyDict.get room (games st') = None
  ∧ session_of st' opponent !! "room" = None
  ∧ session_of st' sid !! "room" = Some room.
Proof.
  intros H1 H2 Hne Hsid Hs Hc room opponent.
  pose proof (quit_step st sid room "room" p1 p2 []
                (room_name_truthy p1 p2 _ Hs) (split_room_name p1 p2 H1 H2) Hc)
    as Hq.
  simpl in Hq. fold opponent in Hq. rewrite Hq. simpl.
  assert (opponent ≠ sid) as Ho by (by apply opponent_other).
  split_and!; try done.
  - apply get_del_eq.
  - unfold session_of at 1. simpl.
    destruct (session_of st opponent !! "room") as [r|] eqn:Hr.
    + rewrite bool_decide_true by eauto.
      rewrite lookup_insert_eq. simpl. apply lookup_delete_eq.
    + rewrite bool_decide_false by (by intros [? ?]). exact Hr.
  - unfold session_of at 1. simpl.
    destruct (bool_decide _); [|exact Hs].
    rewrite lookup_insert_ne by done. exact Hs.
Qed.

(** What holds after that quit whether the other handle is connected or
    not: when it is not, the handler has raised after the deletion of the
    game, and a handle that is not connected has no room. *)
Lemma quit_clean_pair_after (st : State) (sid p1 p2 : Sid) :
  clean p1 → clean p2 → p1 ≠ p2 → sid = p1 ∨ sid = p2 →
  session_of st sid !! "room" = Some (room_name p1 p2) →
  let room := room_name p1 p2 in
  let opponent := if String.eqb sid p1 then p2 else p1 in
  let st' := res_state (exec (quit sid) st) in
  PyDict.get room (games st') = None
  ∧ session_of st' opponent !! "room" = None
  ∧ session_of st' sid !! "room" = Some room.
Proof.
  intros H1 H2 Hne Hsid Hs room opponent.
  destruct (sessions st !! opponent) as [d|] eqn:Hc.
  - destruct (quit_clean_pair st sid p1 p2 H1 H2 Hne Hsid Hs)
      as (_ & _ & _ & Hg & Ho & Hmine); [fold opponent; rewrite Hc; eauto|].
    done.
  - rewrite (quit_peer_gone st sid room "room" p1 p2 []
               (room_name_truthy p1 p2 _ Hs) (split_room_name p1 p2 H1 H2) Hc).
    simpl. split_and!.
    + apply get_del_eq.
    + unfold session_of. simpl. by rewrite Hc.
    + exact Hs.
Qed.

(** X9. When a participant quits while nobody waits and its opponent is
    connected, the opponent is alone in the queue, and the next handle to
    join is paired with it: the opponent plays white in the new game and the
    newcomer black. *)
Theorem requeued_opponent_plays_white (st : State) (sid p1 p2 newcomer : Sid) :
  clean p1 → clean p2 → p1 ≠ p2 → sid = p1 ∨ sid = p2 →
  session_of st sid !! "room" = Some (room_name p1 p2) →
  is_Some (sessions st !! (if String.eqb sid p1 then p2 else p1)) →
  waiting st = [] →
  let opponent := if String.eqb sid p1 then p2 else p1 in
  let start c p :=
    mkEmit "start" {[ "fen" := fen initial; "your_color" := c ]} (ToSid p) in
  snd (run [EvQuit sid; EvJoin newcomer] st) =
    [[left_msg (room_name p1 p2)];
     [start "white" opponent; start "black" newcomer]]
  ∧ waiting (fst (run [EvQuit sid; EvJoin newcomer] st)) = []
  ∧ PyDict.get (room_name opponent newcomer)
      (games (fst (run [EvQuit sid; EvJoin newcomer] st))) = Some initial.
Proof.
  intros H1 H2 Hne Hsid Hs Hc Hw opponent start.
  rewrite <- (arrive_session_of (EvQuit sid)) in Hs.
  apply (arrive_connected (EvQuit sid)) in Hc.
  rewrite <- (arrive_waiting (EvQuit sid)) in Hw.
  destruct (quit_clean_pair _ sid p1 p2 H1 H2 Hne Hsid Hs Hc)
    as (_ & Hq & Hw' & _).
  fold opponent in Hw'. rewrite Hw in Hw'.
  change (waiting (res_state (exec (quit sid) (arrive (EvQuit sid) st)))
          = [opponent]) in Hw'.
  rewrite !run_cons.
  change (handler (EvQuit sid)) with (quit sid).
  change (handler (EvJoin newcomer)) with (join newcomer).
  change (depart (EvQuit sid)) with (λ st : State, st).
  change (depart (EvJoin newcomer)) with (λ st : State, st).
  cbv beta.
  set (st1 := res_state (exec (quit sid) (arrive (EvQuit sid) st))) in *.
  rewrite Hq.
  rewrite (join_pairs (arrive (EvJoin newcomer) st1) newcomer opponent newcomer [])
    by (by rewrite arrive_waiting, Hw').
  simpl. split_and!; [done | done | apply get_set_eq].
Qed.

(** X22. [quit] raises nothing but [KeyError], and only where it asks for
    the session of the handle it takes for the opponent, at line 125: the
    session of the quitting handle holds a room name, the handle read off
    that name is not connected, [opponent_left] has been sent to the room,
    the game and the pending replay requests of the room are deleted, and
    nothing else is changed: the queue, the sessions and the members of the
    rooms are as before. *)
Theorem quit_raises_only (sid : Sid) (st : State) :
  let r := exec (quit sid) st in
  raised r = None
  ∨ ∃ (room s0 s1 s2 : string) (more : list string),
      truthy_room (session_of st sid) = Some room
      ∧ PyStr.py_split "_" room = s0 :: s1 :: s2 :: more
      ∧ sessions st !! (if String.eqb sid s1 then s2 else s1) = None
      ∧ raised r = Some KeyError
      ∧ res_out r = [left_msg room]
      ∧ games (res_state r) = PyDict.del room (games st)
      ∧ replay_requests (res_state r) = delete room (replay_requests st)
      ∧ waiting (res_state r) = waiting st
      ∧ sessions (res_state r) = sessions st
      ∧ rooms (res_state r) = rooms st.
Proof.
  intros r. subst r.
  destruct (quit_cases sid st)
    as [->|[(room & s0 & s1 & s2 & more & Hroom & Hsplit & Hc & ->)
           |(room & s0 & s1 & s2 & more & _ & _ & ->)]];
    [by left | | by left].
  right. exists room, s0, s1, s2, more. by split_and!.
Qed.

(** X10. After a participant has quit, the opponent has no room any more:
    a move request of the opponent raises [KeyError], and its replay and
    quit requests change and emit nothing. The handle that quit keeps its
    room, which has no game: its move requests are ignored. *)
Theorem after_quit_requests (st : State) (sid p1 p2 : Sid) :
  clean p1 → clean p2 → p1 ≠ p2 → sid = p1 ∨ sid = p2 →
  session_of st sid !! "room" = Some (room_name p1 p2) →
  let opponent := if String.eqb sid p1 then p2 else p1 in
  let st' := res_state (exec (quit sid) st) in
  (∀ data : Dict, exec (move opponent data) st' = Raise KeyError st' [])
  ∧ exec (replay opponent) st' = Ret tt st' []
  ∧ exec (quit opponent) st' = Ret tt st' []
  ∧ (∀ data : Dict, exec (move sid data) st' = Ret tt st' []).
Proof.
  intros H1 H2 Hne Hsid Hs opponent st'.
  destruct (quit_clean_pair_after st sid p1 p2 H1 H2 Hne Hsid Hs)
    as (Hg & Ho & Hmine).
  fold opponent st' in Hg, Ho, Hmine.
  assert (truthy_room (session_of st' opponent) = None) as Ht
    by (unfold truthy_room; by rewrite Ho).
  split_and!.
  - intros data. by apply move_unattached.
  - by apply replay_ignored.
  - by apply quit_ignored.
  - intros data. by apply (move_no_game st' sid data (room_name p1 p2)).
Qed.

End AfterQuit.

(** * The client *)

Section ClientFacts.
Context `{E : RulesEngine}.
Import Client.

(** X11. The server rebuilds the move that the client sent: for a move of
    four or five characters, the string that [move] makes of the payload of
    the client is the move itself, and reading the payload raises nothing. *)
Theorem payload_round_trip (uci : string) (st : State) (out : list Emit) :
  String.length uci = 4 ∨ String.length uci = 5 →
  build_uci (move_payload uci) st out = Ret uci st out.
Proof.
  intros Hlen.
  destruct uci as [|a [|b [|c [|d [|e [|f u]]]]]]; simpl in Hlen;
    try (destruct Hlen; discriminate).
  - vm_compute. reflexivity.
  - vm_compute. reflexivity.
Qed.

(** The payload of the client always has the keys that [move] reads. *)
Lemma payload_keys (uci : string) :
  is_Some (move_payload uci !! "from") ∧ is_Some (move_payload uci !! "to").
Proof.
  unfold move_payload. destruct (String.length uci =? 5)%nat.
  - rewrite lookup_insert_ne by done. rewrite lookup_insert_eq.
    rewrite lookup_insert_ne by done. rewrite lookup_insert_ne by done.
    rewrite lookup_singleton_eq. eauto.
  - rewrite lookup_insert_eq. rewrite lookup_insert_ne by done.
    rewrite lookup_singleton_eq. eauto.
Qed.

(** X12. Whatever the move, a request built by the client never makes
    [move] fail on a missing key: for a handle whose room has a game, the
    handler returns or raises [ValueError]. *)
Theorem client_request_has_keys (uci : string) (st : State) (sid : Sid)
    (room : string) (board : Board) :
  session_of st sid !! "room" = Some room →
  PyDict.get room (games st) = Some board →
  raised (exec (move sid (move_payload uci)) st) ≠ Some KeyError.
Proof.
  intros Hs Hg.
  destruct (payload_keys uci) as [[f Hf] [t Ht]].
  destruct (from_uci (uci_of f t (move_payload uci !! "promotion")))
    as [mv|] eqn:Hp.
  - pose proof (move_parsed st sid _ room board f t mv Hs Hg Hf Ht Hp) as Hm.
    simpl in Hm. rewrite Hm. by destruct (legal board mv).
  - by rewrite (move_value_error st sid _ room board f t Hs Hg Hf Ht Hp).
Qed.

End ClientFacts.

Section ClientScreen.
Import Client.
Local Open Scope Z_scope.

Lemma cell_of_point (x : Z) :
  0 ≤ x < size →
  0 ≤ x / CELL < 8 ∧ x / CELL * CELL ≤ x < x / CELL * CELL + CELL.
Proof.
  change size with 800. change CELL with 100. intros Hx.
  pose proof (Z.div_mod x 100 ltac:(lia)) as Hdm.
  pose proof (Z.mod_pos_bound x 100 ltac:(lia)) as Hmod.
  split; [|lia].
  split; [apply Z.div_pos; lia | apply Z.div_lt_upper_bound; lia].
Qed.

(** X13. The square that a click selects is the one that is framed: for a
    click inside the window, whatever the colour of the player, the
    rectangle that [draw_board] frames for the square returned by
    [get_square_from_mouse] contains the point of the click. This holds for
    every numbering of the squares from which file and rank can be read
    back. *)
Theorem click_is_framed (square : Z → Z → Z) (square_file square_rank : Z → Z)
    (my_color : option string) (x y : Z) :
  (∀ f r, 0 ≤ f < 8 → 0 ≤ r < 8 →
     square_file (square f r) = f ∧ square_rank (square f r) = r) →
  0 ≤ x < size →
  0 ≤ y < size →
  collidepoint
    (highlight_rect square_file square_rank my_color
       (get_square_from_mouse square my_color (x, y)))
    (x, y) = true.
Proof.
  intros Hinv Hx Hy.
  destruct (cell_of_point x Hx) as [Hj Hxj].
  destruct (cell_of_point y Hy) as [Hi Hyi].
  unfold get_square_from_mouse, highlight_rect, collidepoint.
  destruct (bool_decide (my_color = Some "black"%string)); simpl.
  - destruct (Hinv (7 - x / CELL) (y / CELL)) as [-> ->]; [lia | lia |].
    replace (7 - (7 - x / CELL)) with (x / CELL) by lia.
    rewrite !andb_true_iff, !Z.leb_le, !Z.ltb_lt. lia.
  - destruct (Hinv (x / CELL) (7 - y / CELL)) as [-> ->]; [lia | lia |].
    replace (7 - (7 - y / CELL)) with (y / CELL) by lia.
    rewrite !andb_true_iff, !Z.leb_le, !Z.ltb_lt. lia.
Qed.

(** File and rank are read back from the squares of python-chess. *)
Lemma py_square_inv (f r : Z) :
  0 ≤ f < 8 → 0 ≤ r < 8 →
  py_square_file (py_square f r) = f ∧ py_square_rank (py_square f r) = r.
Proof.
  intros Hf Hr. unfold py_square_file, py_square_rank, py_square.
  change 7 with (Z.ones 3). rewrite Z.land_ones by lia.
  rewrite Z.shiftr_div_pow2 by lia. change (2 ^ 3) with 8.
  split.
  - rewrite Z.add_comm, Z.mod_add by lia. apply Z.mod_small. lia.
  - rewrite Z.add_comm, Z.div_add by lia. rewrite Z.div_small by lia. lia.
Qed.

(** X14. The squares that the client selects are squares of the board:
    with the numbering of python-chess, a click inside the window gives a
    square from 0 to 63, and the two orientations mirror each other: the
    squares that one point selects for white and for black add up to 63. *)
Theorem click_square_range (x y : Z) :
  0 ≤ x < size →
  0 ≤ y < size →
  (∀ my_color : option string,
     0 ≤ get_square_from_mouse py_square my_color (x, y) ≤ 63)
  ∧ get_square_from_mouse py_square (Some "white"%string) (x, y)
    + get_square_from_mouse py_square (Some "black"%string) (x, y) = 63.
Proof.
  intros Hx Hy.
  destruct (cell_of_point x Hx) as [Hj _].
  destruct (cell_of_point y Hy) as [Hi _].
  unfold get_square_from_mouse, py_square. split.
  - intros my_color. destruct (bool_decide _); lia.
  - rewrite bool_decide_false by discriminate.
    rewrite bool_decide_true by done. lia.
Qed.

(** One click on the game-over screen. *)
Lemma click_over_sent (pos : Z * Z) (c : Flags) :
  let '(c', sent, exited) := click_over pos c in
  (sent = [] ∧ c' = c ∧ exited = false)
  ∨ (sent = ["replay"%string] ∧ replay_chosen c = false
     ∧ replay_chosen c' = true ∧ exited = false)
  ∨ (sent = ["quit"%string] ∧ c' = c ∧ exited = true).
Proof.
  unfold click_over.
  destruct (collidepoint replay_button_rect pos).
  - destruct (replay_chosen c) eqn:Hc; simpl; [by left|].
    right. left. by split_and!.
  - destruct (collidepoint quit_button_rect pos); [|by left].
    right. by right.
Qed.

(** X15. However often the player clicks on the game-over screen, the
    client asks for a replay at most once, and not at all if it has asked
    already; once it has asked, the flag stays set; and a quit request is
    the last thing it sends. *)
Theorem replay_requested_once (clicks : list (Z * Z)) (c : Flags) :
  let '(c', sent) := clicks_over clicks c in
  (count_occ string_dec sent "replay"%string
     ≤ if replay_chosen c then 0 else 1)%nat
  ∧ (replay_chosen c = true → replay_chosen c' = true)
  ∧ ∀ i : nat, sent !! i = Some "quit"%string → S i = length sent.
Proof.
  revert c. induction clicks as [|pos clicks IH]; intros c; simpl.
  - split_and!; [destruct (replay_chosen c); simpl; lia | done | done].
  - pose proof (click_over_sent pos c) as Hc.
    destruct (click_over pos c) as [[c1 sent1] exited].
    destruct Hc as [(-> & -> & ->)|[(-> & Hc0 & Hc1 & ->)|(-> & -> & ->)]].
    + specialize (IH c). destruct (clicks_over clicks c) as [c2 sent2].
      exact IH.
    + specialize (IH c1). destruct (clicks_over clicks c1) as [c2 sent2].
      rewrite Hc1 in IH. destruct IH as (Hn & Hk & Hq).
      rewrite Hc0. split_and!.
      * simpl. lia.
      * done.
      * intros [|i]; simpl; [done|]. intros Hi. f_equal. by apply Hq.
    + split_and!; [destruct (replay_chosen c); simpl; lia | done |].
      intros [|i]; simpl; [done|]. by rewrite lookup_nil.
Qed.

End ClientScreen.

Section Teardown.
Context `{E : RulesEngine}.

#[local] Ltac open_m :=
  unfold exec, disconnect, emit, gets, modify, raise, skip,
    mbind, M_bind, mret, M_ret; simpl.

(** The loop passes the games of others and stops at the first game of
    the handle. *)
Lemma disconnect_loop_first_match (sid p1 p2 : Sid) (board : Board)
    (pre post : list (string * Board)) :
  Forall (game_of_others sid) pre →
  clean p1 → clean p2 → sid = p1 ∨ sid = p2 →
  ∀ (st : State) (out : list Emit),
    disconnect_loop sid (pre ++ (room_name p1 p2, board) :: post) st out =
      Ret tt
        (set_replay_requests (delete (room_name p1 p2))
           (set_games (PyDict.del (room_name p1 p2)) st))
        (out ++ [left_msg (room_name p1 p2)]).
Proof.
  intros Hpre H1 H2 Hsid.
  pose proof (split_room_name p1 p2 H1 H2) as Hp.
  remember (room_name p1 p2) as room eqn:Hroom.
  induction Hpre as [|[r b] pre (q1 & q2 & Hq1 & Hq2 & Hr & Hn1 & Hn2) _ IH];
    intros st out; simpl.
  - rewrite Hp.
    assert (String.eqb sid p1 || String.eqb sid p2 = true) as ->; [|done].
    destruct Hsid as [->| ->]; rewrite String.eqb_refl; by rewrite ?orb_true_r.
  - simpl in Hr. rewrite Hr, (split_room_name q1 q2 Hq1 Hq2).
    apply String.eqb_neq in Hn1, Hn2. rewrite Hn1, Hn2. simpl. apply IH.
Qed.

(** X16. [disconnect] tears down the first game of the handle: when the
    games before it in the store are games of other handles, and all these
    rooms are made of handles without underscore, it takes the handle out of
    the queue, sends one [opponent_left] to the room of that game, and
    deletes that game and its pending replay requests. Sessions, room
    membership and the other games stay as they are. *)
Theorem disconnect_tears_down_first_game (st : State) (sid p1 p2 : Sid)
    (board : Board) (pre post : list (string * Board)) :
  games st = pre ++ (room_name p1 p2, board) :: post →
  Forall (game_of_others sid) pre →
  clean p1 → clean p2 → sid = p1 ∨ sid = p2 →
  let room := room_name p1 p2 in
  exec (disconnect sid) st =
    Ret tt
      {| waiting :=
           if PyList.mem sid (waiting st) then PyList.remove sid (waiting st)
           else waiting st;
         games := PyDict.del room (games st);
         replay_requests := delete room (replay_requests st);
         sessions := sessions st;
         rooms := rooms st |}
      [left_msg room].
Proof.
  intros Hg Hpre H1 H2 Hsid room. open_m.
  destruct (PyList.mem sid (waiting st)); simpl; rewrite Hg;
    rewrite (disconnect_loop_first_match sid p1 p2 board pre post Hpre H1 H2 Hsid);
    unfold set_replay_requests, set_games; simpl; by rewrite Hg.
Qed.

End Teardown.

Section Queued.
Context `{E : RulesEngine}.

#[local] Ltac open_m :=
  unfold exec, disconnect, emit, gets, modify, raise, skip,
    mbind, M_bind, mret, M_ret; simpl.

Lemma disconnect_loop_no_match (sid : Sid) (items : list (string * Board)) :
  Forall (game_of_others sid) items →
  ∀ (st : State) (out : list Emit),
    disconnect_loop sid items st out = Ret tt st out.
Proof.
  intros Hitems.
  induction Hitems as [|[r b] items (q1 & q2 & Hq1 & Hq2 & Hr & Hn1 & Hn2) _ IH];
    intros st out; simpl; [done|].
  simpl in Hr. rewrite Hr, (split_room_name q1 q2 Hq1 Hq2).
  apply String.eqb_neq in Hn1, Hn2. rewrite Hn1, Hn2. simpl. apply IH.
Qed.

(** X17. The disconnection of a handle that has no game, when the rooms of
    the games are made of handles without underscore, only takes the first
    occurrence of the handle out of the queue, if there is one: nothing is
    emitted and nothing else changes. *)
Theorem disconnect_without_game (st : State) (sid : Sid) :
  Forall (game_of_others sid) (games st) →
  exec (disconnect sid) st =
    Ret tt
      (if PyList.mem sid (waiting st)
       then set_waiting (PyList.remove sid) st else st)
      [].
Proof.
  intros Hg. open_m.
  destruct (PyList.mem sid (waiting st)); simpl;
    by rewrite disconnect_loop_no_match.
Qed.

End Queued.

(** * The further statements at work *)

Section FurtherRuns.
Import Scripted.

(** X23. After the disconnection of its opponent a handle is still
    attached to the room (its session is not cleared), so its quit goes
    through the room once more: it broadcasts [opponent_left] to the room and
    then raises [KeyError] on the session of the handle that is gone; the
    queue stays empty. *)
Theorem quit_after_opponent_disconnect_raises :
  let st := after (paired ++ [EvDisconnect "B"]) in
  let r := exec (quit "A") st in
  session_of st "A" !! "room" = Some "room_A_B"
  ∧ sessions st !! "B" = None
  ∧ PyDict.get "room_A_B" (games st) = None
  ∧ members st "room_A_B" = {[ "A" ]}
  ∧ raised r = Some KeyError
  ∧ res_out r = [left_msg "room_A_B"]
  ∧ waiting (res_state r) = []
  ∧ members (res_state r) "room_A_B" = {[ "A" ]}.
Proof. intros st r. split_and!; vm_compute; reflexivity. Qed.

Lemma room_name_inj_witness :
  clean "A" ∧ room_name "A" "B" = room_name "A" "B" ∧ ("A" = "A" ∧ "B" = "B").
Proof.
  assert (clean "A") as HA by (vm_compute; reflexivity).
  split; [exact HA|]. split; [reflexivity|].
  exact (room_name_inj "A" "B" "A" "B" HA HA eq_refl).
Defined.

Lemma pending_sets_are_singletons_witness :
  replay_requests (fst (run (paired ++ [EvReplay "A"]) init)) !! "room_A_B"
    = Some {["A"]}
  ∧ size ({["A"]} : gset Sid) = 1.
Proof.
  assert (replay_requests (fst (run (paired ++ [EvReplay "A"]) init))
            !! "room_A_B" = Some {["A"]}) as Hr by (vm_compute; reflexivity).
  split; [exact Hr|].
  exact (pending_sets_are_singletons (paired ++ [EvReplay "A"]) "room_A_B"
           {["A"]} Hr).
Defined.

Lemma clean_runs_disconnect_returns_witness :
  Forall (λ ev, clean (sid_of ev)) paired
  ∧ raised (exec (disconnect "B") (fst (run paired init))) = None.
Proof.
  assert (Forall (λ ev, clean (sid_of ev)) paired) as Hc.
  { repeat constructor; vm_compute; reflexivity. }
  split; [exact Hc|].
  exact (clean_runs_disconnect_returns paired "B" Hc).
Defined.

Lemma requeued_opponent_plays_white_witness :
  session_of (after paired) "A" !! "room" = Some (room_name "A" "B")
  ∧ is_Some (sessions (after paired) !! "B")
  ∧ waiting (after paired) = []
  ∧ waiting (fst (run [EvQuit "A"; EvJoin "C"] (after paired))) = []
  ∧ PyDict.get (room_name "B" "C")
      (games (fst (run [EvQuit "A"; EvJoin "C"] (after paired)))) = Some initial.
Proof.
  assert (clean "A") as HA by (vm_compute; reflexivity).
  assert (clean "B") as HB by (vm_compute; reflexivity).
  assert ("A" ≠ "B") as Hne by discriminate.
  assert (session_of (after paired) "A" !! "room" = Some (room_name "A" "B"))
    as Hs by (vm_compute; reflexivity).
  assert (is_Some (sessions (after paired) !! "B")) as Hc
    by (eexists; vm_compute; reflexivity).
  assert (waiting (after paired) = []) as Hw by (vm_compute; reflexivity).
  split; [exact Hs|]. split; [exact Hc|]. split; [exact Hw|].
  destruct (requeued_opponent_plays_white (after paired) "A" "A" "B" "C"
              HA HB Hne (or_introl eq_refl) Hs Hc Hw) as (_ & Hq & Hg).
  split; [exact Hq | exact Hg].
Defined.

Lemma after_quit_requests_witness :
  session_of (after paired) "A" !! "room" = Some (room_name "A" "B")
  ∧ exec (move "B" (req "e7" "e5")) (res_state (exec (quit "A") (after paired)))
    = Raise KeyError (res_state (exec (quit "A") (after paired))) [].
Proof.
  assert (clean "A") as HA by (vm_compute; reflexivity).
  assert (clean "B") as HB by (vm_compute; reflexivity).
  assert ("A" ≠ "B") as Hne by discriminate.
  assert (session_of (after paired) "A" !! "room" = Some (room_name "A" "B"))
    as Hs by (vm_compute; reflexivity).
  split; [exact Hs|].
  destruct (after_quit_requests (after paired) "A" "A" "B"
              HA HB Hne (or_introl eq_refl) Hs) as (Hm & _).
  exact (Hm (req "e7" "e5")).
Defined.

Lemma payload_round_trip_witness :
  String.length "e7e8q" = 5
  ∧ build_uci (Client.move_payload "e7e8q") init [] = Ret "e7e8q" init [].
Proof.
  split; [reflexivity|].
  exact (payload_round_trip "e7e8q" init [] (or_intror eq_refl)).
Defined.

Lemma client_request_has_keys_witness :
  session_of (after paired) "A" !! "room" = Some "room_A_B"
  ∧ PyDict.get "room_A_B" (games (after paired)) = Some initial
  ∧ raised (exec (move "A" (Client.move_payload "f2f3")) (after paired))
    ≠ Some KeyError.
Proof.
  assert (session_of (after paired) "A" !! "room" = Some "room_A_B") as Hs
    by (vm_compute; reflexivity).
  assert (PyDict.get "room_A_B" (games (after paired)) = Some initial) as Hg
    by (vm_compute; reflexivity).
  split; [exact Hs|]. split; [exact Hg|].
  exact (client_request_has_keys "f2f3" (after paired) "A" "room_A_B" initial
           Hs Hg).
Defined.

Lemma click_is_framed_witness :
  (0 ≤ 250 < Client.size)%Z ∧ (0 ≤ 730 < Client.size)%Z
  ∧ Client.get_square_from_mouse Client.py_square (Some "black") (250, 730)%Z
    = 61%Z
  ∧ Client.collidepoint
      (Client.highlight_rect Client.py_square_file Client.py_square_rank
         (Some "black")
         (Client.get_square_from_mouse Client.py_square (Some "black")
            (250, 730)%Z))
      (250, 730)%Z = true.
Proof.
  assert (0 ≤ 250 < Client.size)%Z as Hx by (unfold Client.size; lia).
  assert (0 ≤ 730 < Client.size)%Z as Hy by (unfold Client.size; lia).
  split; [exact Hx|]. split; [exact Hy|]. split; [vm_compute; reflexivity|].
  exact (click_is_framed Client.py_square Client.py_square_file
           Client.py_square_rank (Some "black") 250 730 py_square_inv Hx Hy).
Defined.

Lemma click_square_range_witness :
  (0 ≤ 250 < Client.size)%Z ∧ (0 ≤ 730 < Client.size)%Z
  ∧ (Client.get_square_from_mouse Client.py_square (Some "white") (250, 730)
     + Client.get_square_from_mouse Client.py_square (Some "black") (250, 730)
     = 63)%Z.
Proof.
  assert (0 ≤ 250 < Client.size)%Z as Hx by (unfold Client.size; lia).
  assert (0 ≤ 730 < Client.size)%Z as Hy by (unfold Client.size; lia).
  split; [exact Hx|]. split; [exact Hy|].
  destruct (click_square_range 250 730 Hx Hy) as [_ Hsum]. exact Hsum.
Defined.

Lemma disconnect_tears_down_first_game_witness :
  games (after (paired ++ [EvJoin "C"; EvJoin "D"])) =
    [(room_name "A" "B", initial)] ++ (room_name "C" "D", initial) :: []
  ∧ Forall (game_of_others "D") [(room_name "A" "B", (initial : Board))]
  ∧ res_out (exec (disconnect "D") (after (paired ++ [EvJoin "C"; EvJoin "D"])))
    = [left_msg (room_name "C" "D")]
  ∧ games (res_state
             (exec (disconnect "D") (after (paired ++ [EvJoin "C"; EvJoin "D"]))))
    = [(room_name "A" "B", initial)].
Proof.
  assert (clean "C") as HC by (vm_compute; reflexivity).
  assert (clean "D") as HD by (vm_compute; reflexivity).
  assert (games (after (paired ++ [EvJoin "C"; EvJoin "D"])) =
          [(room_name "A" "B", initial)] ++ (room_name "C" "D", initial) :: [])
    as Hg by (vm_compute; reflexivity).
  assert (Forall (game_of_others "D") [(room_name "A" "B", (initial : Board))])
    as Hpre.
  { constructor; [|constructor]. exists "A", "B".
    split; [vm_compute; reflexivity|]. split; [vm_compute; reflexivity|].
    split; [reflexivity|]. split; discriminate. }
  split; [exact Hg|]. split; [exact Hpre|].
  rewrite (disconnect_tears_down_first_game _ "D" "C" "D" initial _ _
             Hg Hpre HC HD (or_intror eq_refl)).
  split; [reflexivity | vm_compute; reflexivity].
Defined.

Lemma disconnect_without_game_witness :
  Forall (game_of_others "C") (games (after (paired ++ [EvJoin "C"])))
  ∧ waiting (after (paired ++ [EvJoin "C"])) = ["C"]
  ∧ waiting (res_state (exec (disconnect "C") (after (paired ++ [EvJoin "C"]))))
    = []
  ∧ res_out (exec (disconnect "C") (after (paired ++ [EvJoin "C"]))) = [].
Proof.
  assert (games (after (paired ++ [EvJoin "C"])) = [(room_name "A" "B", initial)])
    as Hg by (vm_compute; reflexivity).
  assert (Forall (game_of_others "C") (games (after (paired ++ [EvJoin "C"]))))
    as Hall.
  { rewrite Hg. constructor; [|constructor]. exists "A", "B".
    split; [vm_compute; reflexivity|]. split; [vm_compute; reflexivity|].
    split; [reflexivity|]. split; discriminate. }
  assert (waiting (after (paired ++ [EvJoin "C"])) = ["C"]) as Hw
    by (vm_compute; reflexivity).
  split; [exact Hall|]. split; [exact Hw|].
  rewrite (disconnect_without_game _ "C" Hall). rewrite Hw.
  split; reflexivity.
Defined.

Lemma replay_follows_handshake_witness :
  truthy_room (session_of (after paired) "A") = Some "room_A_B"
  ∧ truthy_room (session_of (after paired) "B") = Some "room_A_B"
  ∧ pending (after paired) "room_A_B" = ∅
  ∧ restarts ["A"; "A"; "B"; "B"; "A"] (after paired)
    = [false; false; true; false; true].
Proof.
  assert (truthy_room (session_of (after paired) "A") = Some "room_A_B") as HA
    by (vm_compute; reflexivity).
  assert (truthy_room (session_of (after paired) "B") = Some "room_A_B") as HB
    by (vm_compute; reflexivity).
  assert (pending (after paired) "room_A_B" = ∅) as Hp
    by (vm_compute; reflexivity).
  split; [exact HA|]. split; [exact HB|]. split; [exact Hp|].
  rewrite (replay_follows_handshake "room_A_B" "A" "B" ["A"; "A"; "B"; "B"; "A"]).
  - rewrite Hp. vm_compute. reflexivity.
  - discriminate.
  - apply Forall_cons; split; [by left|].
    apply Forall_cons; split; [by left|].
    apply Forall_cons; split; [by right|].
    apply Forall_cons; split; [by right|].
    apply Forall_cons; split; [by left|]. constructor.
  - exact HA.
  - exact HB.
  - rewrite Hp. apply empty_subseteq.
Defined.

Lemma joins_keep_queue_short_witness :
  length (waiting (init (E := engine))) ≤ 1
  ∧ length (waiting (fst (run (EvJoin <$> ["A"; "B"; "C"]) init))) ≤ 1.
Proof.
  assert (length (waiting (init (E := engine))) ≤ 1) as H0 by (simpl; lia).
  split; [exact H0|].
  exact (joins_keep_queue_short ["A"; "B"; "C"] init H0).
Defined.

Lemma disconnect_bad_room_witness :
  PyList.mem "c" (waiting (after [EvJoin "a_b"; EvJoin "c"])) = false
  ∧ games (after [EvJoin "a_b"; EvJoin "c"]) = [("room_a_b_c", initial)]
  ∧ PyStr.py_split "_" "room_a_b_c" = ["room"; "a"; "b"; "c"]
  ∧ exec (disconnect "c") (after [EvJoin "a_b"; EvJoin "c"])
    = Raise ValueError (after [EvJoin "a_b"; EvJoin "c"]) [].
Proof.
  assert (PyList.mem "c" (waiting (after [EvJoin "a_b"; EvJoin "c"])) = false)
    as Hw by (vm_compute; reflexivity).
  assert (games (after [EvJoin "a_b"; EvJoin "c"]) = [("room_a_b_c", initial)])
    as Hg by (vm_compute; reflexivity).
  assert (PyStr.py_split "_" "room_a_b_c" = ["room"; "a"; "b"; "c"]) as Hp
    by (vm_compute; reflexivity).
  split; [exact Hw|]. split; [exact Hg|]. split; [exact Hp|].
  exact (disconnect_bad_room _ "c" "room_a_b_c" initial [] "room" "a" "b" "c" []
           Hw Hg Hp).
Defined.


End FurtherRuns.
